(** * funman: intervals, result aggregation and scenario dispatch

    A shallow embedding of
      - src/funman/representation/interval.py  (class Interval)
      - src/funman/server/query.py             (FunmanWorkUnit, FunmanResults)
    and the properties of these that the specification states.

    Conventions of the embedding.
      - A finite Python float is read as the rational it denotes ([Q]);
        rounding is outside the model, Python's [==] on floats is
        [Qeq_bool].
      - A Python call that may raise returns a [Py.result]; a method that
        mutates [self] returns the new object next to its result, so that
        the writes made before a [raise] stay visible.
      - Module-level names are looked up in the list of names the module
        binds ([Py.load_global]): a name that no statement of the module
        binds raises [NameError], as in Python. *)

From Stdlib Require Import ZArith QArith Qabs Lqa Lia Bool List String Ascii.
From Stdlib Require Import DecimalString.
Import ListNotations.

Set Implicit Arguments.

(* ===================================================================== *)
(** ** Python values, exceptions and the logging effect                  *)
(* ===================================================================== *)

Module Py.

Inductive exn : Type :=
| NameError (name : string)
| TypeError (what : string)
| ValueError (what : string)
| KeyError (key : string)
| IndexError (what : string)
| OverflowError (what : string)
| ValidationError (what : string)
| Exception (msg : string).

Inductive result (A : Type) : Type :=
| Ok (a : A)
| Raise (e : exn).

Arguments Ok {A} a.
Arguments Raise {A} e.

(** A computation that may append records to a logger and may raise.
    The records written before a [raise] are kept. *)
Definition M (A : Type) : Type := list string -> result A * list string.

Definition ret {A} (a : A) : M A := fun log => (Ok a, log).

Definition bind {A B} (m : M A) (k : A -> M B) : M B :=
  fun log =>
    match m log with
    | (Ok a, log') => k a log'
    | (Raise e, log') => (Raise e, log')
    end.

Definition lift {A} (r : result A) : M A := fun log => (r, log).

(** [logger.warning(msg)] *)
Definition warning (msg : string) : M unit :=
  fun log => (Ok tt, log ++ [msg]).

(** [try: body except <handled>: handler(e)] *)
Definition try_except {A} (body : M A) (handled : exn -> bool)
           (handler : exn -> M A) : M A :=
  fun log =>
    match body log with
    | (Ok a, log') => (Ok a, log')
    | (Raise e, log') =>
        if handled e then handler e log' else (Raise e, log')
    end.

(** Running a computation with an empty log. *)
Definition run {A} (m : M A) : result A * list string := m [].

(** The pure fragment: computations that raise but do not log. *)
Definition rbind {A B} (r : result A) (k : A -> result B) : result B :=
  match r with
  | Ok a => k a
  | Raise e => Raise e
  end.

(** Reading the global [name] in a module that binds [globals];
    [v] is the object the name denotes where it is bound. (No name read
    this way below is a builtin, where the lookup would go next.) *)
Definition load_global {A} (globals : list string) (name : string) (v : A)
  : result A :=
  if existsb (String.eqb name) globals then Ok v else Raise (NameError name).

End Py.

Declare Scope py_scope.
Delimit Scope py_scope with py.
Notation "x <- c ;; k" := (Py.bind c (fun x => k))
  (at level 61, c at next level, right associativity) : py_scope.
Notation "c ;;; k" := (Py.bind c (fun _ => k))
  (at level 61, right associativity) : py_scope.
Notation "x <~ c ;; k" := (Py.rbind c (fun x => k))
  (at level 61, c at next level, right associativity) : py_scope.

(* ===================================================================== *)
(** ** funman.constants                                                  *)
(* ===================================================================== *)

(** Modelled from the spec: funman/constants.py is not among the sources.
    A bound ([lb], [ub] : [Optional[Union[float, str]]]) is a finite number
    or one of the two sentinels NEG_INFINITY and POS_INFINITY, which are
    strings (the spec's design notes: "overloading a plain number with
    string sentinels", "string-equality checks against sentinel values").
    The source applies [float()] and [Decimal()] to bounds, so the two
    strings are spelled as those functions read the infinities. *)
Inductive Bound : Type :=
| NEG_INFINITY
| POS_INFINITY
| Fin (x : Q).

(** A Python float: what [float(bound)] and numpy's [average] return. *)
Inductive pyfloat : Type :=
| FNegInf
| FPosInf
| FNaN
| FFin (x : Q).

Module Bounds.

(** Python [a == b]: numbers by value, strings by content, a number and
    a string are never equal. *)
Definition eq (a b : Bound) : bool :=
  match a, b with
  | NEG_INFINITY, NEG_INFINITY => true
  | POS_INFINITY, POS_INFINITY => true
  | Fin x, Fin y => Qeq_bool x y
  | _, _ => false
  end.

(** Python [a <= b]: numbers by value; two strings lexicographically (the
    spelling of NEG_INFINITY starts with the minus sign, which sorts
    before every letter); a number against a string is a TypeError. *)
Definition le (a b : Bound) : Py.result bool :=
  match a, b with
  | Fin x, Fin y => Py.Ok (Qle_bool x y)
  | NEG_INFINITY, NEG_INFINITY => Py.Ok true
  | POS_INFINITY, POS_INFINITY => Py.Ok true
  | NEG_INFINITY, POS_INFINITY => Py.Ok true
  | POS_INFINITY, NEG_INFINITY => Py.Ok false
  | _, _ => Py.Raise (Py.TypeError "'<=' not supported between 'float' and 'str'")
  end.

(** Python [a - b], [a + b], [a / 2] on bounds: arithmetic on numbers,
    a TypeError as soon as an operand is a string. *)
Definition sub (a b : Bound) : Py.result Q :=
  match a, b with
  | Fin x, Fin y => Py.Ok (x - y)
  | _, _ => Py.Raise (Py.TypeError "unsupported operand type(s) for -")
  end.

Definition add (a b : Bound) : Py.result Q :=
  match a, b with
  | Fin x, Fin y => Py.Ok (x + y)
  | _, _ => Py.Raise (Py.TypeError "unsupported operand type(s) for +")
  end.

(** [float(a)] *)
Definition to_float (a : Bound) : pyfloat :=
  match a with
  | NEG_INFINITY => FNegInf
  | POS_INFINITY => FPosInf
  | Fin x => FFin x
  end.

(** The digits of [format(x, ".5f")]: [|x|] rounded to five decimals,
    ties to even. *)
Definition round_half_even (x : Q) : Z :=
  let n := Qnum x in
  let d := Z.pos (Qden x) in
  let q := (n / d)%Z in
  let r := (n mod d)%Z in
  match (2 * r ?= d)%Z with
  | Lt => q
  | Gt => (q + 1)%Z
  | Eq => if Z.even q then q else (q + 1)%Z
  end.

Definition digits (n : Z) : string :=
  NilZero.string_of_uint (N.to_uint (Z.to_N n)).

Fixpoint zeros (m : nat) (s : string) : string :=
  match m with
  | O => s
  | S m' => String "0"%char (zeros m' s)
  end.

Definition pad (width : nat) (s : string) : string :=
  zeros (width - String.length s)%nat s.

Definition format_5f_Q (x : Q) : string :=
  let n := round_half_even (Qabs x * 100000) in
  ((if Qlt_le_dec x 0 then "-" else "")
     ++ digits (n / 100000) ++ "." ++ pad 5 (digits (n mod 100000)))%string.

(** [format(a, ".5f")]: the code [f] does not apply to a string. *)
Definition format_5f (a : Bound) : Py.result string :=
  match a with
  | Fin x => Py.Ok (format_5f_Q x)
  | _ => Py.Raise (Py.ValueError "Unknown format code 'f' for object of type 'str'")
  end.

End Bounds.

(* ===================================================================== *)
(** ** funman.utils.math_utils                                           *)
(* ===================================================================== *)

Module math_utils.

(** Modelled from the spec: funman/utils/math_utils.py is not among the
    sources. Spec 4.1: [lt/lte/gt/gte] "treat NEG_INFINITY as strictly
    less than every finite value", "reflexive for lte/gte, never strictly
    less/greater than itself", "POS_INFINITY symmetrically, and otherwise
    compare finite values using exact decimal comparison". *)
Definition compare (a b : Bound) : comparison :=
  match a, b with
  | NEG_INFINITY, NEG_INFINITY => Eq
  | NEG_INFINITY, _ => Lt
  | _, NEG_INFINITY => Gt
  | POS_INFINITY, POS_INFINITY => Eq
  | POS_INFINITY, _ => Gt
  | _, POS_INFINITY => Lt
  | Fin x, Fin y => (x ?= y)%Q
  end.

Definition lt (a b : Bound) : bool :=
  match compare a b with Lt => true | _ => false end.

Definition lte (a b : Bound) : bool :=
  match compare a b with Gt => false | _ => true end.

Definition gt (a b : Bound) : bool :=
  match compare a b with Gt => true | _ => false end.

Definition gte (a b : Bound) : bool :=
  match compare a b with Lt => false | _ => true end.

(** Modelled from the spec: [div(a, n)], spec 4.1: "dividing a sentinel
    by a positive finite number returns the same sentinel"; a finite
    value is divided. The spec states [div] for a positive [n] only, and
    the properties below use it there only. *)
Definition div (a : Bound) (n : Q) : Bound :=
  match a with
  | Fin x => Fin (x / n)
  | sentinel => sentinel
  end.

End math_utils.

(* ===================================================================== *)
(** ** funman.representation.interval                                    *)
(* ===================================================================== *)

(** [class Interval(BaseModel)]: the four fields. *)
Record Interval : Type := mkInterval {
  lb : Bound;
  ub : Bound;
  closed_upper_bound : bool;
  cached_width : option Q
}.

(** What [Interval.intersection] returns: [self], or a list of floats. *)
Inductive intersection_result : Type :=
| AnInterval (i : Interval)
| AList (l : list pyfloat).

Module Interval.

Local Open Scope py_scope.

(** The names bound at the top level of interval.py: its imports
    (lines 1-9), the logger [l] (line 11) and the class (line 14). *)
Definition globals : list string :=
  [ "logging"; "Decimal"; "List"; "Optional"; "Union"; "average";
    "BaseModel"; "Field"; "model_validator"; "math_utils";
    "NEG_INFINITY"; "POS_INFINITY"; "l"; "Interval" ]%string.

(** [__eq__] between two Intervals: the bounds only. *)
Definition __eq__ (self other : Interval) : bool :=
  Bounds.eq (lb self) (lb other) && Bounds.eq (ub self) (ub other).

(** [__str__] *)
Definition __str__ (self : Interval) : Py.result string :=
  let ub_ := (if closed_upper_bound self then "]" else ")")%string in
  l_ <~ Bounds.format_5f (lb self) ;;
  u_ <~ Bounds.format_5f (ub self) ;;
  Py.Ok ("[" ++ l_ ++ ", " ++ u_ ++ ub_)%string.

Definition equal_bounds_text : string :=
  (" has equal lower and upper bounds, so assuming the upper bound is closed.  (I.e., [lb, ub) is actually [lb, ub])")%string.

(** [check_interval], the validator that runs after the fields are set. *)
Definition check_interval (self : Interval) : Py.M Interval :=
  if Bounds.eq (lb self) (ub self) && negb (closed_upper_bound self) then
    s <- Py.lift (__str__ self) ;;
    Py.warning (s ++ equal_bounds_text)%string ;;;
    Py.ret (mkInterval (lb self) (ub self) true (cached_width self))
  else Py.ret self.

(** [Interval(lb=..., ub=..., closed_upper_bound=...)]: pydantic sets the
    fields ([cached_width] takes its default), runs [check_interval] and
    reports a ValueError of the validator as a ValidationError. *)
Definition init (lb_ ub_ : Bound) (closed : bool) : Py.M Interval :=
  fun log =>
    match check_interval (mkInterval lb_ ub_ closed None) log with
    | (Py.Raise (Py.ValueError w), log') =>
        (Py.Raise (Py.ValidationError w), log')
    | r => r
    end.

Definition from_value (v : Bound) : Py.M Interval := init v v true.

Definition disjoint (self other : Interval) : bool :=
  math_utils.lte (ub self) (lb other) || math_utils.gte (lb self) (ub other).

Definition is_point (self : Interval) : bool :=
  Bounds.eq (lb self) (ub self) && closed_upper_bound self.

Definition is_unbound (self : Interval) : bool :=
  Bounds.eq (lb self) NEG_INFINITY && Bounds.eq (ub self) POS_INFINITY.

Definition finite (self : Interval) : bool :=
  negb (Bounds.eq (lb self) NEG_INFINITY)
  && negb (Bounds.eq (ub self) POS_INFINITY).

Definition meets (self other : Interval) : bool :=
  Bounds.eq (ub self) (lb other) || Bounds.eq (lb self) (ub other).

(** [normalize]: both keyword arguments are [div(self.lb, factor)]
    (lines 79 and 80). *)
Definition normalize (self : Interval) (normalization_factor : Q)
  : Py.M Interval :=
  init (math_utils.div (lb self) normalization_factor)
       (math_utils.div (lb self) normalization_factor)
       false.

(** [contains]: [lhs] and [rhs] are both evaluated, then combined. *)
Definition contains (self other : Interval) : Py.result bool :=
  lhs <~ (if Bounds.eq (lb self) NEG_INFINITY
             || Bounds.eq (lb other) NEG_INFINITY
          then Py.Ok (Bounds.eq (lb self) NEG_INFINITY
                      || negb (Bounds.eq (lb other) NEG_INFINITY))
          else Bounds.le (lb self) (lb other)) ;;
  rhs <~ (if Bounds.eq (ub self) POS_INFINITY
             || Bounds.eq (ub other) POS_INFINITY
          then Py.Ok (negb (Bounds.eq (ub other) POS_INFINITY)
                      || Bounds.eq (ub self) POS_INFINITY)
          else Bounds.le (ub other) (ub self)) ;;
  Py.Ok (lhs && rhs).

Definition contains_value (self : Interval) (value : Bound) : bool :=
  let lb_sat := math_utils.gte value (lb self) in
  let ub_sat :=
    if closed_upper_bound self
    then math_utils.lte value (ub self)
    else math_utils.lt value (ub self) in
  lb_sat && ub_sat.

(** [intersection] *)
Definition intersection (self b : Interval) : intersection_result :=
  if __eq__ self b then AnInterval self
  else
    let '(minArray, maxArray) :=
      if Bounds.eq (lb self) (lb b) then
        if math_utils.lt (ub self) (ub b) then (self, b) else (b, self)
      else if math_utils.lt (lb self) (lb b) then (self, b)
      else (b, self) in
    if math_utils.gt (ub minArray) (lb maxArray)
    then AList [Bounds.to_float (lb maxArray); Bounds.to_float (ub minArray)]
    else AList [].

(** [subtract]; [None] is Python's [None]. *)
Definition subtract (self b : Interval) : Py.M (option Interval) :=
  if math_utils.lt (lb self) (lb b) then
    i <- init (lb self) (lb b) false ;; Py.ret (Some i)
  else if math_utils.gt (lb self) (lb b) then
    i <- init (ub b) (ub self) false ;; Py.ret (Some i)
  else Py.ret None.

(** numpy's [average] of a list of numbers: the mean, NaN on an empty
    list; on a list of floats, NaN as soon as one of them is NaN. *)
Definition average (xs : list Q) : pyfloat :=
  match xs with
  | [] => FNaN
  | _ => FFin (fold_left Qplus xs 0 / inject_Z (Z.of_nat (List.length xs)))
  end.

Definition fplus (a b : pyfloat) : pyfloat :=
  match a, b with
  | FFin x, FFin y => FFin (x + y)
  | FNaN, _ | _, FNaN => FNaN
  | FPosInf, FNegInf | FNegInf, FPosInf => FNaN
  | FPosInf, _ | _, FPosInf => FPosInf
  | FNegInf, _ | _, FNegInf => FNegInf
  end.

Definition average_floats (xs : list pyfloat) : pyfloat :=
  match xs with
  | [] => FNaN
  | _ =>
      match fold_left fplus xs (FFin 0) with
      | FFin t => FFin (t / inject_Z (Z.of_nat (List.length xs)))
      | other => other
      end
  end.

(** [if points:] is taken for a list that is neither [None] nor empty. *)
Definition truthy {A} (points : option (list A)) : bool :=
  match points with
  | Some (_ :: _) => true
  | _ => false
  end.

Section Midpoint.

(** The value of [funman.constants.BIG_NUMBER], the constant the
    expressions of lines 255 and 257 name; interval.py imports
    NEG_INFINITY and POS_INFINITY from that module (line 9) and nothing
    else, so [globals] does not hold the name. *)
Variable BIG_NUMBER_value : Q.

Definition BIG_NUMBER : Py.result Bound :=
  Py.load_global globals "BIG_NUMBER" (Fin BIG_NUMBER_value).

(** [midpoint]; an operand is read before the operation is applied. *)
Definition midpoint (self : Interval) (points : option (list (list Q)))
  : Py.result pyfloat :=
  if truthy points then
    let means := map average (match points with Some g => g | None => [] end) in
    Py.Ok (average_floats means)
  else if Bounds.eq (lb self) NEG_INFINITY
          && Bounds.eq (ub self) POS_INFINITY then
    Py.Ok (FFin 0)
  else if Bounds.eq (lb self) NEG_INFINITY then
    big <~ BIG_NUMBER ;;
    x <~ Bounds.sub (ub self) big ;;
    Py.Ok (FFin x)
  else if Bounds.eq (ub self) POS_INFINITY then
    big <~ BIG_NUMBER ;;
    x <~ Bounds.add (lb self) big ;;
    Py.Ok (FFin x)
  else
    d <~ Bounds.sub (ub self) (lb self) ;;
    x <~ Bounds.add (Fin (d / 2)) (lb self) ;;
    Py.Ok (FFin x).

End Midpoint.

(** [intersects] *)
Definition intersects (self other : Interval) : bool :=
  contains_value self (lb other)
  || contains_value other (lb self)
  || (contains_value self (ub other) && math_utils.gt (ub other) (lb self))
  || (contains_value other (ub self) && math_utils.gt (ub self) (lb other)).

(** [union]; [None] is the value of a call that runs past the last
    [elif] without a [return]. The tie-break of line 276 compares
    [self.ub] with [other.lb]. *)
Definition union (self other : Interval) : Py.M (option (list Interval)) :=
  if __eq__ self other then Py.ret (Some [self])
  else
    let '(minInterval, maxInterval) :=
      if Bounds.eq (lb self) (lb other) then
        if math_utils.lt (ub self) (lb other) then (self, other)
        else (other, self)
      else if math_utils.lt (lb self) (lb other) then (self, other)
      else (other, self) in
    if math_utils.gte (ub minInterval) (lb maxInterval) then
      ans <- init (lb minInterval) (ub maxInterval) false ;;
      Py.ret (Some [ans])
    else if math_utils.lt (ub minInterval) (lb maxInterval) then
      Py.ret (Some [minInterval; maxInterval])
    else Py.ret None.

End Interval.

(* ===================================================================== *)
(** ** Python dicts and strings                                          *)
(* ===================================================================== *)

(** A [dict] with string keys, in insertion order. *)
Module Dict.

Definition t (V : Type) : Type := list (string * V).

Fixpoint get {V} (d : t V) (k : string) : option V :=
  match d with
  | [] => None
  | (k', v) :: d' => if String.eqb k k' then Some v else get d' k
  end.

Definition mem {V} (d : t V) (k : string) : bool :=
  match get d k with Some _ => true | None => false end.

(** [d[k] = v]: an existing key keeps its place, a new one goes last. *)
Fixpoint set {V} (d : t V) (k : string) (v : V) : t V :=
  match d with
  | [] => [(k, v)]
  | (k', v') :: d' =>
      if String.eqb k k' then (k, v) :: d' else (k', v') :: set d' k v
  end.

Definition keys {V} (d : t V) : list string := map fst d.

End Dict.

Module Str.

(** [sub in s] *)
Definition contains (sub s : string) : bool :=
  match String.index 0 sub s with Some _ => true | None => false end.

(** [s.rsplit("_", 1)]: the parts around the last underscore, when there
    is one. *)
Fixpoint rsplit_underscore (s : string) : option (string * string) :=
  match s with
  | EmptyString => None
  | String c s' =>
      match rsplit_underscore s' with
      | Some (a, b) => Some (String c a, b)
      | None => if Ascii.eqb c "_" then Some (EmptyString, s') else None
      end
  end.

Definition is_digit (c : ascii) : bool :=
  (48 <=? nat_of_ascii c)%nat && (nat_of_ascii c <=? 57)%nat.

Fixpoint all_digits (s : string) : bool :=
  match s with
  | EmptyString => true
  | String c s' => is_digit c && all_digits s'
  end.

(** [s.isdigit()] *)
Definition isdigit (s : string) : bool :=
  match s with
  | EmptyString => false
  | _ => all_digits s
  end.

(** [int(s)] for a string of digits. *)
Definition int (s : string) : nat :=
  fold_left (fun acc c => (10 * acc + (nat_of_ascii c - 48))%nat)
            (list_ascii_of_string s) 0%nat.

(** [bool(s)] *)
Definition truthy (s : string) : bool :=
  match s with EmptyString => false | _ => true end.

End Str.

(* ===================================================================== *)
(** ** funman.server.query                                               *)
(* ===================================================================== *)

(** A number held by [Point.values]: a float, or an [int] of any size. *)
Inductive pyvalue : Type :=
| VFloat (x : Q)
| VInt (n : Z).

(** One element of an exported series: an index, a value or [None]. *)
Inductive cell : Type :=
| CInt (n : nat)
| CFloat (x : Q)
| CNone.

Module Query.

Local Open Scope py_scope.
Local Open Scope string_scope.

(** The names bound at the top level of query.py: its imports
    (lines 1-34) and its four classes. The module binds no logger. *)
Definition globals : list string :=
  [ "random"; "Dict"; "List"; "Optional"; "Tuple"; "Union"; "pd"; "plt";
    "BaseModel"; "LABEL_ANY"; "ModelParameter"; "FUNMANConfig";
    "BilayerModel"; "DecapodeModel"; "EncodedModel"; "EnsembleModel";
    "GeneratedPetriNetModel"; "PetrinetModel"; "QueryAnd"; "QueryFunction";
    "QueryLE"; "QueryTrue"; "GeneratedRegnetModel"; "RegnetModel";
    "StateVariableConstraint"; "Explanation"; "LabeledParameter";
    "Parameter"; "StructureParameter"; "ParameterSpace"; "Point";
    "ConsistencyScenario"; "ConsistencyScenarioResult";
    "ParameterSynthesisScenario"; "ParameterSynthesisScenarioResult";
    "AnalysisScenario"; "FunmanWorkRequest"; "FunmanProgress";
    "FunmanWorkUnit"; "FunmanResults" ].

(** *** The collaborators, as far as query.py looks into them *)

(** The class of a model object; [isinstance] reads it. *)
Inductive Model : Type :=
| RegnetModel | PetrinetModel | DecapodeModel | BilayerModel
| GeneratedRegnetModel | GeneratedPetriNetModel | EncodedModel
| EnsembleModel.

Definition isinstance_EnsembleModel (m : Model) : bool :=
  match m with EnsembleModel => true | _ => false end.

Inductive Query : Type :=
| QueryAnd (body : string)
| QueryLE (body : string)
| QueryFunction (body : string)
| QueryTrue.

Inductive StateVariableConstraint : Type :=
| Constraint (body : string).

Inductive FUNMANConfig : Type :=
| Config (body : string).

Record LabeledParameter : Type := mkLabeledParameter {
  name : string;
  p_lb : Bound;
  p_ub : Bound;
  label : string
}.

(** [ModelParameter(name=, ub=, lb=, label=)] and
    [StructureParameter(name=, ub=, lb=, label=)] *)
Inductive Parameter_ : Type :=
| ModelParameter (name_ : string) (ub_ lb_ : Bound) (label_ : string)
| StructureParameter (name_ : string) (ub_ lb_ : Bound) (label_ : string).

Record Point : Type := mkPoint {
  values : Dict.t pyvalue;
  point_label : string
}.

(** A parameter space, with what [labeled_volume()] returns for it. *)
Record ParameterSpace : Type := mkParameterSpace {
  true_points : list Point;
  false_points : list Point;
  labeled_volume : Q
}.

(** The scenario handed to the aggregator, with what its two volume
    methods return. *)
Record AnalysisScenario : Type := mkAnalysisScenario {
  search_space_volume : Q;
  representable_space_volume : Q
}.

(** The result object handed to [finalize_result]; [isinstance] tells
    the first two classes from anything else. *)
Inductive ScenarioResult : Type :=
| ConsistencyScenarioResult (parameter_space_ : option ParameterSpace)
| ParameterSynthesisScenarioResult (parameter_space_ : option ParameterSpace)
| OtherResult.

(** What [to_scenario] constructs. *)
Inductive Scenario : Type :=
| ConsistencyScenario
    (model_ : Model) (query_ : Query) (parameters_ : list Parameter_)
    (constraints_ : option (list StateVariableConstraint))
| ParameterSynthesisScenario
    (model_ : Model) (query_ : Query) (parameters_ : list Parameter_)
    (constraints_ : option (list StateVariableConstraint)).

(** *** The classes of query.py *)

Record FunmanWorkRequest : Type := mkFunmanWorkRequest {
  query : option Query;
  constraints : option (list StateVariableConstraint);
  parameters : option (list LabeledParameter);
  config : option FUNMANConfig;
  structure_parameters : option (list LabeledParameter)
}.

Record FunmanProgress : Type := mkFunmanProgress {
  progress_ : Q;
  coverage_of_search_space : Q;
  coverage_of_representable_space : Q
}.

(** [FunmanProgress()] *)
Definition FunmanProgress_default : FunmanProgress :=
  mkFunmanProgress 0 0 0.

Record FunmanWorkUnit : Type := mkFunmanWorkUnit {
  wu_id : string;
  wu_progress : FunmanProgress;
  wu_model : Model;
  wu_request : FunmanWorkRequest
}.

Record FunmanResults : Type := mkFunmanResults {
  _finalized : bool;
  id : string;
  model : Model;
  progress : FunmanProgress;
  request : FunmanWorkRequest;
  done : bool;
  error : bool;
  parameter_space : option ParameterSpace
}.

(** [FunmanResults(id=, model=, request=)]: the other fields take their
    defaults. *)
Definition FunmanResults_init (id_ : string) (model_ : Model)
           (request_ : FunmanWorkRequest) : FunmanResults :=
  mkFunmanResults false id_ model_ FunmanProgress_default request_
                  false false None.

Section Dispatch.

(** The value of [funman.LABEL_ANY]. *)
Variable LABEL_ANY : string.

(** [FunmanWorkUnit.to_scenario]; the request has both attributes the
    two [hasattr] tests ask for. *)
Definition to_scenario (self : FunmanWorkUnit) : Py.result Scenario :=
  let query_ :=
    match query (wu_request self) with
    | Some q => q
    | None => QueryTrue
    end in
  let parameters_1 :=
    match parameters (wu_request self) with
    | Some ps =>
        map (fun data => ModelParameter (name data) (p_ub data)
                                        (p_lb data) (label data)) ps
    | None => []
    end in
  let parameters_2 :=
    match structure_parameters (wu_request self) with
    | Some ps =>
        map (fun data => StructureParameter (name data) (p_ub data)
                                            (p_lb data) (label data)) ps
    | None => []
    end in
  let parameters_ := (parameters_1 ++ parameters_2)%list in
  if match parameters (wu_request self) with
     | None => true
     | Some ps => forallb (fun p => String.eqb (label p) LABEL_ANY) ps
     end
  then Py.Ok (ConsistencyScenario (wu_model self) query_ parameters_
                                  (constraints (wu_request self)))
  else if isinstance_EnsembleModel (wu_model self)
  then Py.Raise (Py.Exception
                   "TODO handle EnsembleModel for ParameterSynthesisScenario")
  else Py.Ok (ParameterSynthesisScenario (wu_model self) query_ parameters_
                                         (constraints (wu_request self))).

End Dispatch.

(** *** FunmanResults: the life cycle *)

Definition is_final (self : FunmanResults) : bool := _finalized self.

Definition set_progress (self : FunmanResults) (p : FunmanProgress)
  : FunmanResults :=
  mkFunmanResults (_finalized self) (id self) (model self) p (request self)
                  (done self) (error self) (parameter_space self).

(** [update_parameter_space]: the new object and the value returned. *)
Definition update_parameter_space (self : FunmanResults)
           (scenario : AnalysisScenario) (results : ParameterSpace)
  : FunmanResults * FunmanProgress :=
  let labeled_volume_ := labeled_volume results in
  let search_volume := search_space_volume scenario in
  let repr_volume := representable_space_volume scenario in
  let coverage_of_search_space_ :=
    if Qeq_bool search_volume 0 then 0%Q
    else (labeled_volume_ / search_volume)%Q in
  let coverage_of_repr_space :=
    if Qeq_bool repr_volume 0 then 0%Q
    else (search_volume / repr_volume)%Q in
  let progress' :=
    mkFunmanProgress coverage_of_search_space_ coverage_of_search_space_
                     coverage_of_repr_space in
  (mkFunmanResults (_finalized self) (id self) (model self) progress'
                   (request self) (done self) (error self) (Some results),
   progress').

Definition already_finalized : Py.exn :=
  Py.Exception "FunmanResults was already finalized".

Definition no_parameter_space : Py.exn :=
  Py.Exception "No ParameterSpace for result".

(** [finalize_result]: the object as the call leaves it, and whether the
    call returned or raised. *)
Definition finalize_result (self : FunmanResults)
           (scenario : AnalysisScenario) (result : ScenarioResult)
  : FunmanResults * Py.result unit :=
  if _finalized self then (self, Py.Raise already_finalized)
  else
    let self1 :=
      mkFunmanResults true (id self) (model self) (progress self)
                      (request self) (done self) (error self)
                      (parameter_space self) in
    let ps :=
      match result with
      | ConsistencyScenarioResult ps_ => ps_
      | ParameterSynthesisScenarioResult ps_ => ps_
      | OtherResult => None
      end in
    match ps with
    | None => (self1, Py.Raise no_parameter_space)
    | Some ps_ =>
        let self2 := fst (update_parameter_space self1 scenario ps_) in
        let self3 :=
          mkFunmanResults (_finalized self2) (id self2) (model self2)
                          (progress self2) (request self2) true
                          (error self2) (parameter_space self2) in
        (set_progress self3
           (mkFunmanProgress 1
              (coverage_of_search_space (progress self3))
              (coverage_of_representable_space (progress self3))),
         Py.Ok tt)
    end.

(** [finalize_result_as_error] *)
Definition finalize_result_as_error (self : FunmanResults)
  : FunmanResults * Py.result unit :=
  if _finalized self then (self, Py.Raise already_finalized)
  else
    let self1 :=
      mkFunmanResults true (id self) (model self) (progress self)
                      (request self) true true (parameter_space self) in
    (set_progress self1
       (mkFunmanProgress 1
          (coverage_of_search_space (progress self1))
          (coverage_of_representable_space (progress self1))),
     Py.Ok tt).

(** *** FunmanResults: extraction of time series *)

(** [float(value)]: an [int] that rounds to a magnitude beyond the
    largest double raises OverflowError. *)
Definition float_overflow_bound : Z := (2 ^ 1024 - 2 ^ 970)%Z.

Definition float (value : pyvalue) : Py.result Q :=
  match value with
  | VFloat x => Py.Ok x
  | VInt n =>
      if (Z.abs n <? float_overflow_bound)%Z then Py.Ok (inject_Z n)
      else Py.Raise (Py.OverflowError "int too large to convert to float")
  end.

Definition is_OverflowError (e : Py.exn) : bool :=
  match e with Py.OverflowError _ => true | _ => false end.

Definition exn_text (e : Py.exn) : string :=
  match e with
  | Py.NameError s | Py.TypeError s | Py.ValueError s | Py.KeyError s
  | Py.IndexError s | Py.OverflowError s | Py.ValidationError s
  | Py.Exception s => s
  end.

(** [d[k]] *)
Definition getitem {V} (d : Dict.t V) (k : string) : Py.result V :=
  match Dict.get d k with
  | Some v => Py.Ok v
  | None => Py.Raise (Py.KeyError k)
  end.

(** [_split_symbol]: the two-name assignment needs two parts. *)
Definition _split_symbol (symbol : string) : Py.result (string * string) :=
  match Str.rsplit_underscore symbol with
  | Some st => Py.Ok st
  | None => Py.Raise (Py.ValueError "not enough values to unpack")
  end.

(** [_symbols]: the loop over the keys of [point.values]. *)
Fixpoint _symbols_loop (keys : list string) (variables : list string)
         (symbols : Dict.t (Dict.t string))
  : Py.result (Dict.t (Dict.t string)) :=
  match keys with
  | [] => Py.Ok symbols
  | var :: keys' =>
      if existsb (fun v => Str.contains (v ++ "_") var) variables then
        st <~ _split_symbol var ;;
        let '(var_name, timepoint) := st in
        if Str.truthy timepoint then
          let symbols1 :=
            if negb (Dict.mem symbols var_name)
            then Dict.set symbols var_name []
            else symbols in
          inner <~ getitem symbols1 var_name ;;
          _symbols_loop keys' variables
            (Dict.set symbols1 var_name (Dict.set inner timepoint var))
        else _symbols_loop keys' variables symbols
      else _symbols_loop keys' variables symbols
  end.

Definition _symbols (point : Point) (variables : list string)
  : Py.result (Dict.t (Dict.t string)) :=
  _symbols_loop (Dict.keys (values point)) variables [].

(** The handler of [symbol_values]: [l.warning(e)] reads the global [l]
    first. *)
Definition overflow_handler {A} (keep : A) (e : Py.exn) : Py.M A :=
  _ <- Py.lift (Py.load_global globals "l" tt) ;;
  Py.warning (exn_text e) ;;;
  Py.ret keep.

(** [symbol_values]: the loop over the timepoints of one variable;
    [vals_var] is [vals[var]]. *)
Fixpoint symbol_values_inner (point : Point) (tps : Dict.t string)
         (ts : list string) (vals_var : Dict.t Q) : Py.M (Dict.t Q) :=
  match ts with
  | [] => Py.ret vals_var
  | t :: ts' =>
      vals_var' <-
        Py.try_except
          (sym <- Py.lift (getitem tps t) ;;
           value <- Py.lift (getitem (values point) sym) ;;
           x <- Py.lift (float value) ;;
           Py.ret (Dict.set vals_var t x))
          is_OverflowError
          (overflow_handler vals_var) ;;
      symbol_values_inner point tps ts' vals_var'
  end.

(** [symbol_values]: the loop over the variables. *)
Fixpoint symbol_values_outer (point : Point) (vars : Dict.t (Dict.t string))
         (names : list string) (vals : Dict.t (Dict.t Q))
  : Py.M (Dict.t (Dict.t Q)) :=
  match names with
  | [] => Py.ret vals
  | var :: names' =>
      tps <- Py.lift (getitem vars var) ;;
      inner <- symbol_values_inner point tps (Dict.keys tps) [] ;;
      symbol_values_outer point vars names' (Dict.set vals var inner)
  end.

Definition symbol_values (point : Point) (variables : list string)
  : Py.M (Dict.t (Dict.t Q)) :=
  vars <- Py.lift (_symbols point variables) ;;
  symbol_values_outer point vars (Dict.keys vars) [].

(** [max(xs)] *)
Definition max_ (xs : list nat) : Py.result nat :=
  match xs with
  | [] => Py.Raise (Py.ValueError "max() arg is an empty sequence")
  | x :: xs' => Py.Ok (fold_left Nat.max xs' x)
  end.

(** [vals[i] = v] *)
Fixpoint setitem {A} (vals : list A) (i : nat) (v : A)
  : Py.result (list A) :=
  match vals, i with
  | [], _ => Py.Raise (Py.IndexError "list assignment index out of range")
  | _ :: rest, O => Py.Ok (v :: rest)
  | x :: rest, S i' => rest' <~ setitem rest i' v ;; Py.Ok (x :: rest')
  end.

(** [symbol_timeseries]: the largest timepoint of one variable, or 0. *)
Definition max_timepoint (tps : Dict.t Q) : Py.result nat :=
  max_ (map Str.int (filter Str.isdigit (Dict.keys tps)) ++ [0%nat])%list.

Fixpoint max_timepoints (series : Dict.t (Dict.t Q))
  : Py.result (list nat) :=
  match series with
  | [] => Py.Ok []
  | (_, tps) :: series' =>
      m <~ max_timepoint tps ;;
      ms <~ max_timepoints series' ;;
      Py.Ok (m :: ms)
  end.

(** [symbol_timeseries]: the loop that fills the slots of one variable. *)
Fixpoint fill (tps : Dict.t Q) (vals : list cell) : Py.result (list cell) :=
  match tps with
  | [] => Py.Ok vals
  | (t, v) :: tps' =>
      if Str.isdigit t then
        vals' <~ setitem vals (Str.int t) (CFloat v) ;;
        fill tps' vals'
      else fill tps' vals
  end.

Fixpoint symbol_timeseries_loop (series : Dict.t (Dict.t Q)) (max_t : nat)
         (a_series : Dict.t (list cell)) : Py.result (Dict.t (list cell)) :=
  match series with
  | [] => Py.Ok a_series
  | (var, tps) :: series' =>
      vals <~ fill tps (repeat CNone (max_t + 1)) ;;
      symbol_timeseries_loop series' max_t (Dict.set a_series var vals)
  end.

Definition symbol_timeseries (point : Point) (variables : list string)
  : Py.M (Dict.t (list cell)) :=
  series <- symbol_values point variables ;;
  ms <- Py.lift (max_timepoints series) ;;
  max_t <- Py.lift (max_ ms) ;;
  let a_series := Dict.set [] "index" (map CInt (seq 0 (max_t + 1))) in
  Py.lift (symbol_timeseries_loop series max_t a_series).

End Query.

(* ===================================================================== *)
(** ** Properties of Interval                                            *)
(* ===================================================================== *)

Module IntervalFacts.

(** *** Comparing bounds *)

Lemma eq_compare (a b : Bound) :
  Bounds.eq a b = true <-> math_utils.compare a b = Eq.
Proof.
  destruct a as [| |x], b as [| |y]; simpl; try (split; congruence).
  rewrite Qeq_bool_iff. apply Qeq_alt.
Qed.

Lemma eq_same (a : Bound) : Bounds.eq a a = true.
Proof.
  destruct a as [| |x]; simpl; trivial.
  apply Qeq_bool_iff. reflexivity.
Qed.

Lemma lt_not_eq (a b : Bound) :
  math_utils.lt a b = true -> Bounds.eq a b = false.
Proof.
  unfold math_utils.lt. intros H.
  destruct (Bounds.eq a b) eqn:E; trivial.
  apply eq_compare in E. rewrite E in H. discriminate.
Qed.

Lemma gt_not_eq (a b : Bound) :
  math_utils.gt a b = true -> Bounds.eq a b = false.
Proof.
  unfold math_utils.gt. intros H.
  destruct (Bounds.eq a b) eqn:E; trivial.
  apply eq_compare in E. rewrite E in H. discriminate.
Qed.

Lemma eq_not_lt_gt (a b : Bound) :
  Bounds.eq a b = true ->
  math_utils.lt a b = false /\ math_utils.gt a b = false.
Proof.
  intros E. apply eq_compare in E.
  unfold math_utils.lt, math_utils.gt. rewrite E. split; reflexivity.
Qed.

(** *** The constructor *)

(** Distinct bounds, or a closed upper bound: the validator changes
    nothing and logs nothing. *)
Lemma init_unchanged (lb_ ub_ : Bound) (closed : bool) (log : list string) :
  Bounds.eq lb_ ub_ && negb closed = false ->
  Interval.init lb_ ub_ closed log
  = (Py.Ok (mkInterval lb_ ub_ closed None), log).
Proof.
  intros H. unfold Interval.init, Interval.check_interval. simpl.
  rewrite H. reflexivity.
Qed.

(** Equal finite bounds and an open upper bound: the validator closes
    the interval and logs one warning. *)
Lemma init_corrected (x y : Q) (log : list string) :
  Qeq_bool x y = true ->
  exists msg,
    Interval.init (Fin x) (Fin y) false log
    = (Py.Ok (mkInterval (Fin x) (Fin y) true None), (log ++ [msg])%list).
Proof.
  intros H. unfold Interval.init, Interval.check_interval. simpl.
  rewrite H. simpl. eexists. reflexivity.
Qed.

(** Whatever the constructor returns has the bounds it was given. *)
Lemma init_bounds (lb_ ub_ : Bound) (closed : bool) (log log' : list string)
      (i : Interval) :
  Interval.init lb_ ub_ closed log = (Py.Ok i, log') ->
  lb i = lb_ /\ ub i = ub_
  /\ closed_upper_bound i = (closed || Bounds.eq lb_ ub_).
Proof.
  unfold Interval.init, Interval.check_interval. simpl.
  destruct (Bounds.eq lb_ ub_) eqn:E; destruct closed; simpl.
  - intros H. inversion H. subst. auto.
  - unfold Py.bind, Py.lift, Interval.__str__. simpl.
    destruct (Bounds.format_5f lb_) as [sl|e1]; simpl.
    + destruct (Bounds.format_5f ub_) as [su|e2]; simpl.
      * intros H. inversion H. subst. auto.
      * destruct e2; intros H; inversion H.
    + destruct e1; intros H; inversion H.
  - intros H. inversion H. subst. auto.
  - intros H. inversion H. subst. auto.
Qed.

(** Every interval the constructor returns is closed when its bounds are
    equal. *)
Lemma init_invariant (lb_ ub_ : Bound) (closed : bool)
      (log log' : list string) (i : Interval) :
  Interval.init lb_ ub_ closed log = (Py.Ok i, log') ->
  Bounds.eq (lb i) (ub i) = true -> closed_upper_bound i = true.
Proof.
  intros H E. apply init_bounds in H. destruct H as (Hl & Hu & Hc).
  rewrite Hl, Hu in E. rewrite Hc, E. apply orb_true_r.
Qed.

(** *** midpoint *)

Definition three_to_infinity : Interval :=
  mkInterval (Fin 3) POS_INFINITY false None.

Lemma midpoint_unbounded (big : Q) (closed : bool) (w : option Q) :
  Interval.midpoint big (mkInterval NEG_INFINITY POS_INFINITY closed w) None
  = Py.Ok (FFin 0).
Proof. reflexivity. Qed.

(** In the rational reading of the floats: the rounding and the overflow
    of the doubles ([ub - lb] can be [inf]) are outside it. *)
Lemma midpoint_finite (big a b : Q) (closed : bool) (w : option Q) :
  Interval.midpoint big (mkInterval (Fin a) (Fin b) closed w) None
  = Py.Ok (FFin ((b - a) / 2 + a)).
Proof. reflexivity. Qed.

Lemma BIG_NUMBER_unbound (big : Q) :
  Interval.BIG_NUMBER big = Py.Raise (Py.NameError "BIG_NUMBER").
Proof. reflexivity. Qed.

(** C1. [midpoint()] on [[3, POS_INFINITY)] does not return
    [3 + BIG_NUMBER]: whatever value the constant has in
    funman.constants, interval.py does not bind the name, and the call
    raises NameError. The same holds for every interval with exactly one
    sentinel bound on its own side. *)
Theorem midpoint_one_sided_raises (big x : Q) (closed : bool) (w : option Q) :
  Interval.midpoint big three_to_infinity None
  = Py.Raise (Py.NameError "BIG_NUMBER")
  /\ Interval.midpoint big (mkInterval (Fin x) POS_INFINITY closed w) None
     = Py.Raise (Py.NameError "BIG_NUMBER")
  /\ Interval.midpoint big (mkInterval NEG_INFINITY (Fin x) closed w) None
     = Py.Raise (Py.NameError "BIG_NUMBER").
Proof. repeat split; reflexivity. Qed.

(** *** normalize *)

Definition zero_to_ten : Interval := mkInterval (Fin 0) (Fin 10) false None.

(** Both bounds of a normalized interval come from the lower bound. *)
Lemma normalize_bounds (self : Interval) (f : Q) (log log' : list string)
      (i : Interval) :
  Interval.normalize self f log = (Py.Ok i, log') ->
  lb i = math_utils.div (lb self) f /\ ub i = math_utils.div (lb self) f
  /\ closed_upper_bound i = true.
Proof.
  unfold Interval.normalize. intros H.
  apply init_bounds in H. destruct H as (Hl & Hu & Hc).
  rewrite eq_same in Hc. auto.
Qed.

(** C2. [normalize(2)] on [[0, 10)] returns an interval whose upper bound
    is 0, the lower bound divided by 2, and not 10 / 2: the result is the
    closed point [[0, 0]], after the validator's warning. *)
Theorem normalize_upper_bound_is_lower :
  exists (i : Interval) (msg : string),
    Py.run (Interval.normalize zero_to_ten 2) = (Py.Ok i, [msg])
    /\ Bounds.eq (lb i) (Fin 0) = true
    /\ Bounds.eq (ub i) (Fin 0) = true
    /\ Bounds.eq (ub i) (math_utils.div (ub zero_to_ten) 2) = false
    /\ closed_upper_bound i = true.
Proof.
  eexists. eexists. split; [reflexivity|].
  repeat split; reflexivity.
Qed.

(** *** contains and intersection *)

Definition two_to_five : Interval := mkInterval (Fin 2) (Fin 5) false None.

(** C3. [[0, 10)] contains [[2, 5)], and their intersection is the list
    [[2.0, 10.0]]: neither the interval [[2, 5)] nor its two bounds. *)
Theorem contains_intersection_differs :
  Interval.contains zero_to_ten two_to_five = Py.Ok true
  /\ Interval.intersection zero_to_ten two_to_five = AList [FFin 2; FFin 10]
  /\ Interval.intersection zero_to_ten two_to_five
     <> AList [Bounds.to_float (lb two_to_five);
               Bounds.to_float (ub two_to_five)]
  /\ Interval.intersection zero_to_ten two_to_five <> AnInterval two_to_five.
Proof.
  repeat split; try reflexivity; vm_compute; discriminate.
Qed.

(** When the lower bounds differ and [self] has the smaller one, the
    list ends with the upper bound of [self], whatever [b]'s is. *)
Lemma intersection_lower_first (self b : Interval) :
  math_utils.lt (lb self) (lb b) = true ->
  math_utils.gt (ub self) (lb b) = true ->
  Interval.intersection self b
  = AList [Bounds.to_float (lb b); Bounds.to_float (ub self)].
Proof.
  intros Hlt Hgt. unfold Interval.intersection, Interval.__eq__.
  rewrite (lt_not_eq _ _ Hlt). simpl. rewrite Hlt, Hgt. reflexivity.
Qed.

(** *** subtract *)

Definition five_to_ten : Interval := mkInterval (Fin 5) (Fin 10) false None.
Definition zero_to_three : Interval := mkInterval (Fin 0) (Fin 3) false None.

(** C4, as stated, fails: with [self.lb > b.lb] the interval returned
    need not be closed. [[5, 10).subtract([0, 3))] is [[3, 10)] with an
    open upper bound. *)
Lemma subtract_upper_part_not_closed :
  ~ (forall (self b i : Interval),
        math_utils.gt (lb self) (lb b) = true ->
        fst (Py.run (Interval.subtract self b)) = Py.Ok (Some i) ->
        closed_upper_bound i = true).
Proof.
  intros H.
  specialize (H five_to_ten zero_to_three
                (mkInterval (Fin 3) (Fin 10) false None)
                eq_refl eq_refl).
  discriminate H.
Qed.

(** C4, amended. [subtract(b)] returns the half-open [[self.lb, b.lb)]
    when [self.lb < b.lb]; when [self.lb > b.lb], [self] is half-open and
    the upper bounds differ, it returns the half-open [[b.ub, self.ub)];
    when the lower bounds are equal it returns [None]. Nothing is
    logged. *)
Theorem subtract_cases (self b : Interval) :
  (math_utils.lt (lb self) (lb b) = true ->
   Py.run (Interval.subtract self b)
   = (Py.Ok (Some (mkInterval (lb self) (lb b) false None)), []))
  /\ (math_utils.gt (lb self) (lb b) = true ->
      closed_upper_bound self = false ->
      Bounds.eq (ub b) (ub self) = false ->
      Py.run (Interval.subtract self b)
      = (Py.Ok (Some (mkInterval (ub b) (ub self) false None)), []))
  /\ (Bounds.eq (lb self) (lb b) = true ->
      Py.run (Interval.subtract self b) = (Py.Ok None, [])).
Proof.
  unfold Py.run, Interval.subtract. repeat split.
  - intros Hlt. rewrite Hlt. unfold Py.bind.
    rewrite init_unchanged; [reflexivity|].
    rewrite (lt_not_eq _ _ Hlt). reflexivity.
  - intros Hgt _ Hne.
    assert (Hlt : math_utils.lt (lb self) (lb b) = false).
    { unfold math_utils.lt, math_utils.gt in *.
      destruct (math_utils.compare (lb self) (lb b)); congruence. }
    rewrite Hlt, Hgt. unfold Py.bind.
    rewrite init_unchanged; [reflexivity|].
    rewrite Hne. reflexivity.
  - intros E. destruct (eq_not_lt_gt _ _ E) as [Hlt Hgt].
    rewrite Hlt, Hgt. reflexivity.
Qed.

Lemma subtract_cases_witness :
  Py.run (Interval.subtract zero_to_three five_to_ten)
  = (Py.Ok (Some (mkInterval (Fin 0) (Fin 5) false None)), [])
  /\ closed_upper_bound five_to_ten = false
  /\ Py.run (Interval.subtract five_to_ten zero_to_three)
     = (Py.Ok (Some (mkInterval (Fin 3) (Fin 10) false None)), [])
  /\ Py.run (Interval.subtract five_to_ten five_to_ten) = (Py.Ok None, []).
Proof.
  split; [|split; [reflexivity|split]].
  - apply (proj1 (subtract_cases zero_to_three five_to_ten)). reflexivity.
  - apply (proj1 (proj2 (subtract_cases five_to_ten zero_to_three)));
      reflexivity.
  - apply (proj2 (proj2 (subtract_cases five_to_ten five_to_ten))).
    reflexivity.
Defined.

(** With [self.lb > b.lb] and a closed [self], the interval returned is
    still half-open: [self.ub], a value of [self], is not a value of the
    result. The amended claim says nothing of this case. *)
Lemma subtract_closed_self_drops_upper_bound :
  Py.run (Interval.subtract (mkInterval (Fin 5) (Fin 10) true None)
                            zero_to_three)
  = (Py.Ok (Some (mkInterval (Fin 3) (Fin 10) false None)), [])
  /\ Interval.contains_value (mkInterval (Fin 5) (Fin 10) true None) (Fin 10)
     = true
  /\ Interval.contains_value zero_to_three (Fin 10) = false
  /\ Interval.contains_value (mkInterval (Fin 3) (Fin 10) false None) (Fin 10)
     = false.
Proof. repeat split; reflexivity. Qed.

(** With [self.lb > b.lb] and equal finite upper bounds, the validator
    closes the point interval and logs its warning. *)
Lemma subtract_equal_upper (self b : Interval) (x y : Q) :
  math_utils.gt (lb self) (lb b) = true ->
  ub b = Fin x -> ub self = Fin y -> Qeq_bool x y = true ->
  exists msg,
    Py.run (Interval.subtract self b)
    = (Py.Ok (Some (mkInterval (Fin x) (Fin y) true None)), [msg]).
Proof.
  intros Hgt Hb Hs E.
  assert (Hlt : math_utils.lt (lb self) (lb b) = false).
  { unfold math_utils.lt, math_utils.gt in *.
    destruct (math_utils.compare (lb self) (lb b)); congruence. }
  unfold Py.run, Interval.subtract. rewrite Hlt, Hgt, Hb, Hs.
  unfold Py.bind.
  destruct (init_corrected x y [] E) as [msg Hm].
  exists msg. rewrite Hm. reflexivity.
Qed.

(** *** check_interval *)

(** C8. Every interval the constructor returns is closed when its two
    bounds are equal; [Interval(lb=5, ub=5, closed_upper_bound=False)] is
    constructed, with [closed_upper_bound] set and one warning logged. *)
Theorem constructed_point_is_closed :
  (forall (lb_ ub_ : Bound) (closed : bool) (log log' : list string)
          (i : Interval),
      Interval.init lb_ ub_ closed log = (Py.Ok i, log') ->
      Bounds.eq (lb i) (ub i) = true -> closed_upper_bound i = true)
  /\ Py.run (Interval.init (Fin 5) (Fin 5) false)
     = (Py.Ok (mkInterval (Fin 5) (Fin 5) true None),
        [("[5.00000, 5.00000)" ++ Interval.equal_bounds_text)%string]).
Proof.
  split.
  - intros lb_ ub_ closed log log' i. apply init_invariant.
  - reflexivity.
Qed.

Definition five_five : Interval := mkInterval (Fin 5) (Fin 5) true None.

Definition five_five_warning : string :=
  ("[5.00000, 5.00000)" ++ Interval.equal_bounds_text)%string.

Lemma constructed_point_is_closed_witness :
  Interval.init (Fin 5) (Fin 5) false [] = (Py.Ok five_five, [five_five_warning])
  /\ Bounds.eq (lb five_five) (ub five_five) = true
  /\ closed_upper_bound five_five = true.
Proof.
  split; [reflexivity|]. split; [reflexivity|].
  apply (proj1 constructed_point_is_closed (Fin 5) (Fin 5) false []
               [five_five_warning] five_five);
    reflexivity.
Defined.

End IntervalFacts.

(* ===================================================================== *)
(** ** Properties of FunmanWorkUnit and FunmanResults                    *)
(* ===================================================================== *)

Module QueryFacts.

Import Query.

(** *** to_scenario *)

Definition is_ConsistencyScenario (r : Py.result Scenario) : bool :=
  match r with
  | Py.Ok (ConsistencyScenario _ _ _ _) => true
  | _ => false
  end.

Definition is_ParameterSynthesisScenario (r : Py.result Scenario) : bool :=
  match r with
  | Py.Ok (ParameterSynthesisScenario _ _ _ _) => true
  | _ => false
  end.

Definition unsupported_mode : Py.exn :=
  Py.Exception "TODO handle EnsembleModel for ParameterSynthesisScenario".

(** The request names a parameter whose label is not [any]. *)
Definition some_label_not_any (any : string) (r : FunmanWorkRequest) : Prop :=
  exists ps p,
    parameters r = Some ps /\ In p ps /\ label p <> any.

Lemma some_label_not_any_test (any : string) (r : FunmanWorkRequest) :
  some_label_not_any any r ->
  match parameters r with
  | None => true
  | Some ps => forallb (fun p => String.eqb (label p) any) ps
  end = false.
Proof.
  intros (ps & p & Hps & Hin & Hne). rewrite Hps.
  destruct (forallb _ ps) eqn:E; trivial.
  rewrite forallb_forall in E. specialize (E p Hin).
  apply String.eqb_eq in E. contradiction.
Qed.

(** C7. [to_scenario] returns a Consistency scenario when the request
    has no parameter list or every parameter is labeled [LABEL_ANY]; with
    a parameter labeled otherwise it returns a Parameter-Synthesis
    scenario, unless the model is an EnsembleModel, where it raises the
    unsupported-mode error. *)
Theorem to_scenario_dispatch (LABEL_ANY : string) (self : FunmanWorkUnit) :
  (parameters (wu_request self) = None ->
   is_ConsistencyScenario (to_scenario LABEL_ANY self) = true)
  /\ (forall ps,
        parameters (wu_request self) = Some ps ->
        (forall p, In p ps -> label p = LABEL_ANY) ->
        is_ConsistencyScenario (to_scenario LABEL_ANY self) = true)
  /\ (some_label_not_any LABEL_ANY (wu_request self) ->
      wu_model self <> EnsembleModel ->
      is_ParameterSynthesisScenario (to_scenario LABEL_ANY self) = true)
  /\ (some_label_not_any LABEL_ANY (wu_request self) ->
      wu_model self = EnsembleModel ->
      to_scenario LABEL_ANY self = Py.Raise unsupported_mode).
Proof.
  unfold to_scenario. repeat split.
  - intros H. rewrite H. reflexivity.
  - intros ps H Hall. rewrite H.
    assert (E : forallb (fun p => String.eqb (label p) LABEL_ANY) ps = true).
    { apply forallb_forall. intros p Hp. apply String.eqb_eq. auto. }
    rewrite E. reflexivity.
  - intros H Hm. rewrite (some_label_not_any_test H).
    destruct (wu_model self); try reflexivity. contradiction.
  - intros H Hm. rewrite (some_label_not_any_test H), Hm. reflexivity.
Qed.

Definition param_all : LabeledParameter :=
  mkLabeledParameter "beta" (Fin 0) (Fin 1) "all".

Definition param_any : LabeledParameter :=
  mkLabeledParameter "gamma" (Fin 0) (Fin 1) "any".

Definition request_of (ps : option (list LabeledParameter))
  : FunmanWorkRequest :=
  mkFunmanWorkRequest None None ps None None.

Definition unit_of (m : Model) (ps : option (list LabeledParameter))
  : FunmanWorkUnit :=
  mkFunmanWorkUnit "id" FunmanProgress_default m (request_of ps).

Lemma to_scenario_dispatch_witness :
  is_ConsistencyScenario (to_scenario "any" (unit_of PetrinetModel None))
  = true
  /\ is_ConsistencyScenario
       (to_scenario "any" (unit_of PetrinetModel (Some [param_any]))) = true
  /\ is_ParameterSynthesisScenario
       (to_scenario "any" (unit_of PetrinetModel (Some [param_any; param_all])))
     = true
  /\ to_scenario "any" (unit_of EnsembleModel (Some [param_any; param_all]))
     = Py.Raise unsupported_mode.
Proof.
  assert (Hsome : forall m,
             some_label_not_any "any"
               (wu_request (unit_of m (Some [param_any; param_all])))).
  { intros m. exists [param_any; param_all], param_all.
    split; [reflexivity|]. split; [simpl; auto|]. discriminate. }
  split; [|split; [|split]].
  - apply (proj1 (to_scenario_dispatch "any" (unit_of PetrinetModel None))).
    reflexivity.
  - apply (proj1 (proj2 (to_scenario_dispatch "any"
                           (unit_of PetrinetModel (Some [param_any]))))
             [param_any]); [reflexivity|].
    intros p [Hp|[]]. subst p. reflexivity.
  - apply (proj1 (proj2 (proj2 (to_scenario_dispatch "any"
              (unit_of PetrinetModel (Some [param_any; param_all])))))).
    + apply Hsome.
    + discriminate.
  - apply (proj2 (proj2 (proj2 (to_scenario_dispatch "any"
              (unit_of EnsembleModel (Some [param_any; param_all])))))).
    + apply Hsome.
    + reflexivity.
Defined.

(** *** The life cycle *)

(** A finalized aggregator refuses both finalize calls and is left as it
    was. *)
Lemma finalized_refuses (self : FunmanResults) :
  is_final self = true ->
  (forall scenario result,
      finalize_result self scenario result
      = (self, Py.Raise already_finalized))
  /\ finalize_result_as_error self = (self, Py.Raise already_finalized).
Proof.
  unfold is_final, finalize_result, finalize_result_as_error.
  intros H. rewrite H. split; reflexivity.
Qed.

(** Both finalize calls leave the aggregator finalized, whether they
    return or raise. *)
Lemma finalize_result_sets_flag (self : FunmanResults)
      (scenario : AnalysisScenario) (result : ScenarioResult) :
  is_final (fst (finalize_result self scenario result)) = true.
Proof.
  unfold finalize_result, is_final.
  destruct (_finalized self) eqn:E; [exact E|].
  destruct result as [[ps|]|[ps|]|]; reflexivity.
Qed.

Lemma finalize_result_as_error_sets_flag (self : FunmanResults) :
  is_final (fst (finalize_result_as_error self)) = true.
Proof.
  unfold finalize_result_as_error, is_final.
  destruct (_finalized self) eqn:E; [exact E|reflexivity].
Qed.

(** A call that returns was made on an aggregator not yet finalized, and
    sets [done]. *)
Lemma finalize_result_ok (self self' : FunmanResults)
      (scenario : AnalysisScenario) (result : ScenarioResult) :
  finalize_result self scenario result = (self', Py.Ok tt) ->
  is_final self = false /\ done self' = true /\ error self' = error self
  /\ Qeq_bool (progress_ (progress self')) 1 = true
  /\ exists ps, parameter_space self' = Some ps.
Proof.
  unfold finalize_result, is_final.
  destruct (_finalized self) eqn:E; [discriminate|].
  destruct result as [[ps|]|[ps|]|]; try discriminate;
    intros H; inversion H; subst; simpl; repeat split; eauto.
Qed.

(** C5. A freshly constructed aggregator is not final; once
    [finalize_result] has returned, [is_final()] is [True], and a second
    [finalize_result] or a [finalize_result_as_error] raises the
    already-finalized error. *)
Theorem finalize_result_once
        (id_ : string) (model_ : Model) (request_ : FunmanWorkRequest)
        (scenario : AnalysisScenario) (result : ScenarioResult)
        (self' : FunmanResults) :
  is_final (FunmanResults_init id_ model_ request_) = false
  /\ (finalize_result (FunmanResults_init id_ model_ request_)
                      scenario result
      = (self', Py.Ok tt) ->
      is_final self' = true
      /\ (forall scenario2 result2,
             snd (finalize_result self' scenario2 result2)
             = Py.Raise already_finalized)
      /\ snd (finalize_result_as_error self')
         = Py.Raise already_finalized).
Proof.
  split; [reflexivity|]. intros H.
  assert (F : is_final self' = true).
  { pose proof (finalize_result_sets_flag
                  (FunmanResults_init id_ model_ request_) scenario result)
      as G.
    rewrite H in G. exact G. }
  destruct (finalized_refuses self' F) as [R1 R2].
  split; [exact F|]. split.
  - intros scenario2 result2. rewrite R1. reflexivity.
  - rewrite R2. reflexivity.
Qed.

Definition a_request : FunmanWorkRequest := request_of None.

Definition a_scenario : AnalysisScenario := mkAnalysisScenario 4 8.

Definition a_space : ParameterSpace := mkParameterSpace [] [] 1.

Definition finalized_once : FunmanResults :=
  mkFunmanResults true "id" PetrinetModel
                  (mkFunmanProgress 1 (1 / 4) (4 / 8)) a_request
                  true false (Some a_space).

Lemma finalize_result_once_witness :
  finalize_result (FunmanResults_init "id" PetrinetModel a_request)
                  a_scenario (ConsistencyScenarioResult (Some a_space))
  = (finalized_once, Py.Ok tt)
  /\ is_final finalized_once = true
  /\ snd (finalize_result finalized_once a_scenario
                          (ConsistencyScenarioResult (Some a_space)))
     = Py.Raise already_finalized
  /\ snd (finalize_result_as_error finalized_once)
     = Py.Raise already_finalized.
Proof.
  split; [reflexivity|].
  destruct (proj2 (finalize_result_once "id" PetrinetModel a_request
                     a_scenario (ConsistencyScenarioResult (Some a_space))
                     finalized_once) eq_refl) as (F & R1 & R2).
  split; [exact F|]. split; [apply R1|exact R2].
Defined.

(** The result has no parameter space to give: it is of neither result
    class, or its [parameter_space] is [None]. *)
Definition no_space (result : ScenarioResult) : bool :=
  match result with
  | ConsistencyScenarioResult None => true
  | ParameterSynthesisScenarioResult None => true
  | OtherResult => true
  | _ => false
  end.

(** C10. On an aggregator that is not finalized, [finalize_result] with
    a result that carries no parameter space raises the
    missing-parameter-space error and leaves the aggregator finalized:
    [is_final()] is [True], [done] and [error] are unchanged, so they stay
    [False] where they were, and each later finalize call raises the
    already-finalized error. *)
Theorem finalize_result_without_space
        (self : FunmanResults) (scenario : AnalysisScenario)
        (result : ScenarioResult) :
  is_final self = false ->
  no_space result = true ->
  let self' := fst (finalize_result self scenario result) in
  snd (finalize_result self scenario result) = Py.Raise no_parameter_space
  /\ is_final self' = true
  /\ done self' = done self
  /\ error self' = error self
  /\ (done self = false -> error self = false ->
      done self' = false /\ error self' = false)
  /\ (forall scenario2 result2,
         snd (finalize_result self' scenario2 result2)
         = Py.Raise already_finalized)
  /\ snd (finalize_result_as_error self') = Py.Raise already_finalized.
Proof.
  unfold is_final. intros Hf Hn.
  assert (E : finalize_result self scenario result
              = (mkFunmanResults true (id self) (model self) (progress self)
                   (request self) (done self) (error self)
                   (parameter_space self),
                 Py.Raise no_parameter_space)).
  { unfold finalize_result. rewrite Hf.
    destruct result as [[ps|]|[ps|]|]; try discriminate; reflexivity. }
  rewrite E. simpl. repeat split; auto.
Qed.

Definition fresh_results : FunmanResults :=
  FunmanResults_init "id" PetrinetModel a_request.

Definition result_without_space : ScenarioResult :=
  ConsistencyScenarioResult None.

Lemma finalize_result_without_space_witness :
  is_final fresh_results = false
  /\ no_space result_without_space = true
  /\ snd (finalize_result fresh_results a_scenario result_without_space)
     = Py.Raise no_parameter_space
  /\ is_final
       (fst (finalize_result fresh_results a_scenario result_without_space))
     = true
  /\ done (fst (finalize_result fresh_results a_scenario result_without_space))
     = false
  /\ error (fst (finalize_result fresh_results a_scenario result_without_space))
     = false.
Proof.
  split; [reflexivity|]. split; [reflexivity|].
  destruct (finalize_result_without_space fresh_results a_scenario
              result_without_space eq_refl eq_refl)
    as (R & F & D & E & _).
  split; [exact R|]. split; [exact F|]. split; [exact D|exact E].
Defined.

(** *** Extraction of time series *)

Definition xy_point : Point :=
  mkPoint [("x_0", VFloat 1); ("x_1", VFloat 2); ("y_bad", VFloat 9)]%string
          "true".

(** [{"x_0": 10**400, "x_1": 2.0}] *)
Definition overflowing_point : Point :=
  mkPoint [("x_0", VInt (10 ^ 400)); ("x_1", VFloat 2)]%string "true".

Lemma logger_unbound : Py.load_global globals "l" tt = Py.Raise (Py.NameError "l").
Proof. reflexivity. Qed.

(** The handler raises before it logs, whatever it was handed. *)
Lemma overflow_handler_raises {A} (keep : A) (e : Py.exn) (log : list string) :
  overflow_handler keep e log = (Py.Raise (Py.NameError "l"), log).
Proof. reflexivity. Qed.

(** A timepoint whose value overflows ends the loop over the timepoints
    with a NameError: the timepoints after it are not visited. *)
Lemma symbol_values_inner_overflow
      (point : Point) (tps : Dict.t string) (t sym w : string)
      (ts : list string) (value : pyvalue) (vals_var : Dict.t Q)
      (log : list string) :
  getitem tps t = Py.Ok sym ->
  getitem (values point) sym = Py.Ok value ->
  float value = Py.Raise (Py.OverflowError w) ->
  symbol_values_inner point tps (t :: ts) vals_var log
  = (Py.Raise (Py.NameError "l"), log).
Proof.
  intros H1 H2 H3. simpl.
  unfold Py.bind, Py.try_except, Py.lift. rewrite H1, H2, H3. simpl.
  reflexivity.
Qed.

(** C6. With [{"x_0": 10**400, "x_1": 2.0}] and the variable ["x"],
    converting the value of [x_0] overflows, and [symbol_values] raises
    NameError from its handler: nothing is logged, the timepoint [x_1] is
    not extracted, and [symbol_timeseries] raises with it. *)
Theorem symbol_values_overflow_aborts :
  float (VInt (10 ^ 400))
  = Py.Raise (Py.OverflowError "int too large to convert to float")
  /\ Py.run (symbol_values overflowing_point ["x"%string])
     = (Py.Raise (Py.NameError "l"), [])
  /\ Py.run (symbol_timeseries overflowing_point ["x"%string])
     = (Py.Raise (Py.NameError "l"), []).
Proof. repeat split; vm_compute; reflexivity. Qed.

(** C9. For the values [{"x_0": 1.0, "x_1": 2.0, "y_bad": 9.0}] and the
    variable list [["x"]], [symbol_timeseries] returns
    [{"index": [0, 1], "x": [1.0, 2.0]}]; the symbol [y_bad] is not
    selected and no series is made for it. *)
Theorem symbol_timeseries_example :
  Py.run (symbol_timeseries xy_point ["x"%string])
  = (Py.Ok [("index"%string, [CInt 0; CInt 1]);
            ("x"%string, [CFloat 1; CFloat 2])], [])
  /\ _symbols xy_point ["x"%string]
     = Py.Ok [("x"%string, [("0", "x_0"); ("1", "x_1")]%string)]
  /\ existsb (fun v => Str.contains (v ++ "_") "y_bad") ["x"%string] = false.
Proof. repeat split; vm_compute; reflexivity. Qed.

End QueryFacts.

(* ===================================================================== *)
(** ** The interval algebra                                              *)
(* ===================================================================== *)

Module IntervalAlgebra.

(** *** The comparator as an order on bounds *)

Lemma eq_by_compare (a b : Bound) :
  Bounds.eq a b = match math_utils.compare a b with Eq => true | _ => false end.
Proof.
  destruct a as [| |x], b as [| |y]; simpl; trivial.
  destruct (Qcompare_spec x y) as [H|H|H].
  - apply Qeq_bool_iff. exact H.
  - destruct (Qeq_bool x y) eqn:E; trivial.
    apply Qeq_bool_iff in E. lra.
  - destruct (Qeq_bool x y) eqn:E; trivial.
    apply Qeq_bool_iff in E. lra.
Qed.

Lemma le_by_compare (x y : Q) :
  Qle_bool x y = match (x ?= y)%Q with Gt => false | _ => true end.
Proof.
  destruct (Qcompare_spec x y) as [H|H|H].
  - apply Qle_bool_iff. lra.
  - apply Qle_bool_iff. lra.
  - destruct (Qle_bool x y) eqn:E; trivial.
    apply Qle_bool_iff in E. lra.
Qed.

(** Every test on bounds becomes a case of [compare] on rationals, and
    the cases that remain are closed by linear arithmetic. *)
Ltac unfold_tests :=
  unfold Interval.intersects in *;
  unfold Interval.disjoint, Interval.contains_value,
    Interval.__eq__, Interval.is_point,
    math_utils.lt, math_utils.lte, math_utils.gt, math_utils.gte in *;
  rewrite ?eq_by_compare in *.

Ltac split_bounds :=
  repeat match goal with
         | i : Interval |- _ => destruct i as [[| |?] [| |?] ? ?]
         | b : Bound |- _ => destruct b as [| |?]
         end;
  simpl in *.

Ltac q_cases :=
  repeat match goal with
         | |- context [(?x ?= ?y)%Q] =>
             destruct (Qcompare_spec x y); simpl in *
         | H : context [(?x ?= ?y)%Q] |- _ =>
             destruct (Qcompare_spec x y); simpl in *
         end.

Ltac order :=
  unfold_tests; split_bounds; rewrite ?le_by_compare in *; q_cases;
  try reflexivity; try discriminate; try congruence;
  try (exfalso; lra).

Lemma compare_antisym (a b : Bound) :
  math_utils.compare b a = CompOpp (math_utils.compare a b).
Proof. order. Qed.

(** X1. [disjoint] does not depend on the order of its arguments. *)
Theorem disjoint_symmetric (a b : Interval) :
  Interval.disjoint a b = Interval.disjoint b a.
Proof.
  unfold Interval.disjoint, math_utils.lte, math_utils.gte.
  rewrite (compare_antisym (ub a) (lb b)), (compare_antisym (lb a) (ub b)).
  destruct (math_utils.compare (ub a) (lb b)),
           (math_utils.compare (lb a) (ub b)); reflexivity.
Qed.

(** *** contains *)

(** A sentinel stands on its own side: the lower bound is not
    POS_INFINITY and the upper bound is not NEG_INFINITY. *)
Definition placed (i : Interval) : bool :=
  negb (Bounds.eq (lb i) POS_INFINITY) && negb (Bounds.eq (ub i) NEG_INFINITY).

(** On bounds that are finite or sentinels, with the sentinels on their
    own side, [contains] is the comparator's test. *)
Lemma placed_contains (a b : Interval) :
  placed a = true -> placed b = true ->
  Interval.contains a b
  = Py.Ok (math_utils.lte (lb a) (lb b) && math_utils.lte (ub b) (ub a)).
Proof.
  unfold placed, Interval.contains, Bounds.le. order.
Qed.

(** *** The constructor and the values of an interval *)


(** X6. [normalize] by a positive factor raises ValidationError on every
    interval whose lower bound is a sentinel, the default [Interval()]
    among them: both bounds of the interval it builds are that sentinel,
    with an open upper bound. *)
Theorem normalize_sentinel_raises (self : Interval) (f : Q)
        (log : list string) :
  0 < f ->
  lb self = NEG_INFINITY \/ lb self = POS_INFINITY ->
  exists what,
    Interval.normalize self f log = (Py.Raise (Py.ValidationError what), log).
Proof.
  unfold Interval.normalize.
  intros _ [H|H]; rewrite H; simpl; eexists; reflexivity.
Qed.

Lemma normalize_sentinel_raises_witness :
  0 < 2
  /\ exists what,
       Interval.normalize (mkInterval NEG_INFINITY POS_INFINITY false None) 2 []
       = (Py.Raise (Py.ValidationError what), []).
Proof.
  split; [reflexivity|].
  apply (@normalize_sentinel_raises
           (mkInterval NEG_INFINITY POS_INFINITY false None) 2 []).
  - reflexivity.
  - left. reflexivity.
Defined.

(** On a bound that is finite or a sentinel, [from_value] returns the
    closed point at it. *)
Lemma from_value_of_bound (v : Bound) (log : list string) :
  Interval.from_value v log = (Py.Ok (mkInterval v v true None), log)
  /\ Interval.is_point (mkInterval v v true None) = true
  /\ forall x, Interval.contains_value (mkInterval v v true None) x
               = Bounds.eq x v.
Proof.
  split; [|split].
  - unfold Interval.from_value. apply IntervalFacts.init_unchanged.
    simpl. apply andb_false_r.
  - unfold Interval.is_point. simpl. rewrite IntervalFacts.eq_same. reflexivity.
  - intros x. order.
Qed.

(** X8. An interval returned by the constructor for [lb <= ub] contains
    its lower bound; it contains its upper bound exactly when
    [closed_upper_bound] is set. *)
Theorem constructed_contains_bounds (lb_ ub_ : Bound) (closed : bool)
        (log log' : list string) (i : Interval) :
  Interval.init lb_ ub_ closed log = (Py.Ok i, log') ->
  math_utils.lte lb_ ub_ = true ->
  Interval.contains_value i (lb i) = true
  /\ Interval.contains_value i (ub i) = closed_upper_bound i.
Proof.
  intros H Hle. apply IntervalFacts.init_bounds in H.
  destruct H as (Hl & Hu & Hc).
  destruct i as [l u c w]. simpl in *. subst l u c.
  unfold Interval.contains_value. simpl.
  destruct closed; simpl; split; order.
Qed.

Lemma constructed_contains_bounds_witness :
  Interval.init (Fin 0) POS_INFINITY false []
  = (Py.Ok (mkInterval (Fin 0) POS_INFINITY false None), [])
  /\ math_utils.lte (Fin 0) POS_INFINITY = true
  /\ Interval.contains_value (mkInterval (Fin 0) POS_INFINITY false None) (Fin 0)
     = true
  /\ Interval.contains_value (mkInterval (Fin 0) POS_INFINITY false None)
                             POS_INFINITY
     = false.
Proof.
  split; [reflexivity|]. split; [reflexivity|].
  apply (@constructed_contains_bounds (Fin 0) POS_INFINITY false [] []
           (mkInterval (Fin 0) POS_INFINITY false None)); reflexivity.
Defined.


(** *** intersection, intersects and disjoint *)

Definition no_intersection (r : intersection_result) : bool :=
  match r with
  | AList [] => true
  | _ => false
  end.

(** X9. For two intervals that are not [==], [intersection] returns the
    same list in both argument orders. *)
Theorem intersection_commutes (a b : Interval) :
  Interval.__eq__ a b = false ->
  Interval.intersection a b = Interval.intersection b a.
Proof.
  unfold Interval.intersection. order.
Qed.

Lemma intersection_commutes_witness :
  Interval.__eq__ (mkInterval (Fin 0) (Fin 4) false None)
                  (mkInterval (Fin 2) (Fin 9) false None) = false
  /\ Interval.intersection (mkInterval (Fin 0) (Fin 4) false None)
                           (mkInterval (Fin 2) (Fin 9) false None)
     = Interval.intersection (mkInterval (Fin 2) (Fin 9) false None)
                             (mkInterval (Fin 0) (Fin 4) false None).
Proof.
  split; [reflexivity|].
  apply (@intersection_commutes (mkInterval (Fin 0) (Fin 4) false None)
                                (mkInterval (Fin 2) (Fin 9) false None)).
  reflexivity.
Defined.

(** X10. For two intervals with [lb <= ub] each that are not [==],
    [intersection] returns the empty list exactly when they are
    [disjoint]. *)
Theorem intersection_empty_iff_disjoint (a b : Interval) :
  math_utils.lte (lb a) (ub a) = true ->
  math_utils.lte (lb b) (ub b) = true ->
  Interval.__eq__ a b = false ->
  no_intersection (Interval.intersection a b) = Interval.disjoint a b.
Proof.
  unfold Interval.intersection, no_intersection. order.
Qed.

Lemma intersection_empty_iff_disjoint_witness :
  math_utils.lte (Fin 0) (Fin 4) = true
  /\ math_utils.lte (Fin 4) POS_INFINITY = true
  /\ Interval.__eq__ (mkInterval (Fin 0) (Fin 4) false None)
                     (mkInterval (Fin 4) POS_INFINITY false None) = false
  /\ no_intersection
       (Interval.intersection (mkInterval (Fin 0) (Fin 4) false None)
                              (mkInterval (Fin 4) POS_INFINITY false None))
     = Interval.disjoint (mkInterval (Fin 0) (Fin 4) false None)
                         (mkInterval (Fin 4) POS_INFINITY false None).
Proof.
  split; [reflexivity|]. split; [reflexivity|]. split; [reflexivity|].
  apply (@intersection_empty_iff_disjoint
           (mkInterval (Fin 0) (Fin 4) false None)
           (mkInterval (Fin 4) POS_INFINITY false None)); reflexivity.
Defined.

(** X11. Two intervals that are not [disjoint] always [intersect]. *)
Theorem not_disjoint_intersects (a b : Interval) :
  Interval.disjoint a b = false -> Interval.intersects a b = true.
Proof.
  destruct a as [la ua [|] wa], b as [lb_ ub_ [|] wb]; order.
Qed.

Lemma not_disjoint_intersects_witness :
  Interval.disjoint (mkInterval (Fin 0) (Fin 4) false None)
                    (mkInterval (Fin 2) (Fin 9) true None) = false
  /\ Interval.intersects (mkInterval (Fin 0) (Fin 4) false None)
                         (mkInterval (Fin 2) (Fin 9) true None) = true.
Proof.
  split; [reflexivity|].
  apply (@not_disjoint_intersects (mkInterval (Fin 0) (Fin 4) false None)
                                  (mkInterval (Fin 2) (Fin 9) true None)).
  reflexivity.
Defined.

(** X12. For two half-open intervals with [lb < ub] each, [intersects]
    is the negation of [disjoint]. *)
Theorem intersects_not_disjoint (a b : Interval) :
  closed_upper_bound a = false -> closed_upper_bound b = false ->
  math_utils.lt (lb a) (ub a) = true ->
  math_utils.lt (lb b) (ub b) = true ->
  Interval.intersects a b = negb (Interval.disjoint a b).
Proof.
  destruct a as [la ua ca wa], b as [lb_ ub_ cb wb]. simpl.
  intros Ha Hb. subst ca cb. order.
Qed.

Lemma intersects_not_disjoint_witness :
  math_utils.lt (Fin 0) (Fin 4) = true
  /\ math_utils.lt (Fin 4) (Fin 9) = true
  /\ Interval.intersects (mkInterval (Fin 0) (Fin 4) false None)
                         (mkInterval (Fin 4) (Fin 9) false None)
     = negb (Interval.disjoint (mkInterval (Fin 0) (Fin 4) false None)
                               (mkInterval (Fin 4) (Fin 9) false None)).
Proof.
  split; [reflexivity|]. split; [reflexivity|].
  apply (@intersects_not_disjoint (mkInterval (Fin 0) (Fin 4) false None)
                                  (mkInterval (Fin 4) (Fin 9) false None));
    reflexivity.
Defined.

(** X13. Two intervals that [meet] are [disjoint], also when the bound
    they share is closed. *)
Theorem meets_disjoint (a b : Interval) :
  Interval.meets a b = true -> Interval.disjoint a b = true.
Proof.
  unfold Interval.meets. order.
Qed.

Lemma meets_disjoint_witness :
  Interval.meets (mkInterval (Fin 0) (Fin 1) true None)
                 (mkInterval (Fin 1) (Fin 2) false None) = true
  /\ Interval.disjoint (mkInterval (Fin 0) (Fin 1) true None)
                       (mkInterval (Fin 1) (Fin 2) false None) = true.
Proof.
  split; [reflexivity|].
  apply (@meets_disjoint (mkInterval (Fin 0) (Fin 1) true None)
                         (mkInterval (Fin 1) (Fin 2) false None)).
  reflexivity.
Defined.

(** With a closed upper bound the two tests can both hold: [[0, 1]] and
    [[1, 2)] are disjoint and intersect. *)
Lemma closed_disjoint_and_intersects :
  Interval.disjoint (mkInterval (Fin 0) (Fin 1) true None)
                    (mkInterval (Fin 1) (Fin 2) false None) = true
  /\ Interval.intersects (mkInterval (Fin 0) (Fin 1) true None)
                         (mkInterval (Fin 1) (Fin 2) false None) = true.
Proof. split; reflexivity. Qed.

(** *** union *)

Lemma not_gte_lt (a b : Bound) :
  math_utils.gte a b = false -> math_utils.lt a b = true.
Proof.
  unfold math_utils.gte, math_utils.lt.
  destruct (math_utils.compare a b); congruence.
Qed.

(** The two intervals as [union] orders them. *)
Definition union_order (self other : Interval) : Interval * Interval :=
  if Bounds.eq (lb self) (lb other) then
    if math_utils.lt (ub self) (lb other) then (self, other)
    else (other, self)
  else if math_utils.lt (lb self) (lb other) then (self, other)
  else (other, self).

Lemma union_order_cases (self other : Interval) :
  union_order self other = (self, other)
  \/ union_order self other = (other, self).
Proof.
  unfold union_order.
  destruct (Bounds.eq (lb self) (lb other));
    [destruct (math_utils.lt (ub self) (lb other))
    |destruct (math_utils.lt (lb self) (lb other))]; auto.
Qed.

Lemma union_unfold (self other : Interval) :
  Interval.union self other
  = if Interval.__eq__ self other then Py.ret (Some [self])
    else
      if math_utils.gte (ub (fst (union_order self other)))
                        (lb (snd (union_order self other)))
      then Py.bind (Interval.init (lb (fst (union_order self other)))
                                  (ub (snd (union_order self other))) false)
                   (fun ans => Py.ret (Some [ans]))
      else if math_utils.lt (ub (fst (union_order self other)))
                            (lb (snd (union_order self other)))
           then Py.ret (Some [fst (union_order self other);
                              snd (union_order self other)])
           else Py.ret None.
Proof.
  unfold Interval.union, union_order.
  destruct (Interval.__eq__ self other); trivial.
  destruct (Bounds.eq (lb self) (lb other));
    [destruct (math_utils.lt (ub self) (lb other))
    |destruct (math_utils.lt (lb self) (lb other))]; reflexivity.
Qed.

(** X14. [union] never runs past its last [elif]: it returns a list or
    raises, and never returns [None]. *)
Theorem union_never_none (self other : Interval) (log : list string) :
  fst (Interval.union self other log) <> Py.Ok None.
Proof.
  rewrite union_unfold.
  destruct (Interval.__eq__ self other); [discriminate|].
  destruct (math_utils.gte _ _) eqn:G.
  - unfold Py.bind.
    destruct (Interval.init _ _ false log) as [[i|e] l]; discriminate.
  - rewrite (not_gte_lt _ _ G). discriminate.
Qed.

(** X15. When [union] returns two intervals, they are its two arguments,
    unchanged and ordered with a gap ([first.ub < second.lb]); the
    arguments are then [disjoint], and nothing is logged. *)
Theorem union_two_are_disjoint (self other i j : Interval)
        (log log' : list string) :
  Interval.union self other log = (Py.Ok (Some [i; j]), log') ->
  log' = log
  /\ ((i = self /\ j = other) \/ (i = other /\ j = self))
  /\ math_utils.lt (ub i) (lb j) = true
  /\ Interval.disjoint self other = true.
Proof.
  rewrite union_unfold.
  destruct (Interval.__eq__ self other); [discriminate|].
  destruct (math_utils.gte _ _) eqn:G.
  - unfold Py.bind.
    destruct (Interval.init _ _ false log) as [[k|e] l]; discriminate.
  - rewrite (not_gte_lt _ _ G). unfold Py.ret. intros H.
    inversion H; subst. clear H.
    pose proof (not_gte_lt _ _ G) as L.
    split; [reflexivity|].
    destruct (union_order_cases self other) as [E|E]; rewrite E in *;
      simpl in *.
    + split; [auto|]. split; [exact L|].
      unfold Interval.disjoint, math_utils.lte, math_utils.lt in *.
      destruct (math_utils.compare (ub self) (lb other));
        try discriminate; reflexivity.
    + split; [auto|]. split; [exact L|].
      rewrite disjoint_symmetric.
      unfold Interval.disjoint, math_utils.lte, math_utils.lt in *.
      destruct (math_utils.compare (ub other) (lb self));
        try discriminate; reflexivity.
Qed.

Lemma union_two_are_disjoint_witness :
  Interval.union (mkInterval (Fin 5) (Fin 9) false None)
                 (mkInterval (Fin 0) (Fin 3) false None) []
  = (Py.Ok (Some [mkInterval (Fin 0) (Fin 3) false None;
                  mkInterval (Fin 5) (Fin 9) false None]), [])
  /\ Interval.disjoint (mkInterval (Fin 5) (Fin 9) false None)
                       (mkInterval (Fin 0) (Fin 3) false None) = true.
Proof.
  split; [reflexivity|].
  apply (@union_two_are_disjoint
           (mkInterval (Fin 5) (Fin 9) false None)
           (mkInterval (Fin 0) (Fin 3) false None)
           (mkInterval (Fin 0) (Fin 3) false None)
           (mkInterval (Fin 5) (Fin 9) false None) [] []).
  reflexivity.
Defined.

(** X16. When [self] has the smaller lower bound and reaches
    [other.lb], [union] returns the one interval
    [[self.lb, other.ub)]: the upper bound is [other]'s, and [self.ub]
    is not read for it. *)
Theorem union_merged_upper_bound (self other : Interval)
        (log : list string) :
  math_utils.lt (lb self) (lb other) = true ->
  math_utils.gte (ub self) (lb other) = true ->
  Bounds.eq (lb self) (ub other) = false ->
  Interval.union self other log
  = (Py.Ok (Some [mkInterval (lb self) (ub other) false None]), log).
Proof.
  intros Hlt Hgte Hne. unfold Interval.union, Interval.__eq__.
  rewrite (IntervalFacts.lt_not_eq _ _ Hlt). simpl.
  rewrite Hlt, Hgte. unfold Py.bind.
  rewrite IntervalFacts.init_unchanged; [reflexivity|].
  rewrite Hne. reflexivity.
Qed.

Lemma union_merged_upper_bound_witness :
  math_utils.lt (Fin 0) (Fin 2) = true
  /\ math_utils.gte (Fin 10) (Fin 2) = true
  /\ Bounds.eq (Fin 0) (Fin 5) = false
  /\ Interval.union (mkInterval (Fin 0) (Fin 10) false None)
                    (mkInterval (Fin 2) (Fin 5) false None) []
     = (Py.Ok (Some [mkInterval (Fin 0) (Fin 5) false None]), []).
Proof.
  split; [reflexivity|]. split; [reflexivity|]. split; [reflexivity|].
  apply (@union_merged_upper_bound (mkInterval (Fin 0) (Fin 10) false None)
                                   (mkInterval (Fin 2) (Fin 5) false None) []);
    reflexivity.
Defined.

End IntervalAlgebra.

(* ===================================================================== *)
(** ** Extraction of time series                                         *)
(* ===================================================================== *)

Module QueryExtraction.

Import Query.

(** *** Symbols and their two parts *)

Fixpoint no_underscore (s : string) : bool :=
  match s with
  | EmptyString => true
  | String c s' => negb (Ascii.eqb c "_") && no_underscore s'
  end.

Lemma rsplit_none (s : string) :
  Str.rsplit_underscore s = None <-> no_underscore s = true.
Proof.
  induction s as [|c s IH]; simpl.
  - split; trivial.
  - destruct (Str.rsplit_underscore s) as [[a b]|].
    + split; [discriminate|].
      intros H. apply andb_true_iff in H. destruct H as [_ H].
      apply IH in H. discriminate.
    + destruct (Ascii.eqb c "_"); simpl.
      * split; discriminate.
      * split; intros _; [apply IH|]; reflexivity.
Qed.

Lemma rsplit_join (s t : string) :
  no_underscore t = true ->
  Str.rsplit_underscore (s ++ String "_" t) = Some (s, t).
Proof.
  intros H. induction s as [|c s IH]; simpl.
  - apply rsplit_none in H. rewrite H. reflexivity.
  - rewrite IH. reflexivity.
Qed.

Lemma rsplit_parts (sym s t : string) :
  Str.rsplit_underscore sym = Some (s, t) ->
  sym = (s ++ String "_" t)%string /\ no_underscore t = true.
Proof.
  revert s t. induction sym as [|c sym IH]; simpl; [discriminate|].
  intros s t.
  destruct (Str.rsplit_underscore sym) as [[a b]|] eqn:E.
  - intros H. inversion H; subst. destruct (IH a t Logic.eq_refl) as [H1 H2].
    split; [|exact H2]. simpl. rewrite <- H1. reflexivity.
  - destruct (Ascii.eqb c "_") eqn:C; [|discriminate].
    intros H. inversion H; subst. apply Ascii.eqb_eq in C. subst c.
    split; [reflexivity|]. apply rsplit_none. exact E.
Qed.

(** X17. [_split_symbol] splits at the last underscore: it returns
    [(s, t)] exactly for the symbols [s + "_" + t] where [t] has no
    underscore, and raises ValueError exactly for the symbols that have no
    underscore at all. *)
Theorem split_symbol_round_trip (sym s t : string) :
  (no_underscore t = true ->
   _split_symbol (s ++ String "_" t) = Py.Ok (s, t))
  /\ (_split_symbol sym = Py.Ok (s, t) ->
      sym = (s ++ String "_" t)%string /\ no_underscore t = true)
  /\ (no_underscore sym = true <->
      exists what, _split_symbol sym = Py.Raise (Py.ValueError what)).
Proof.
  unfold _split_symbol. split; [|split].
  - intros H. rewrite (@rsplit_join s t H). reflexivity.
  - destruct (Str.rsplit_underscore sym) as [[a b]|] eqn:E; [|discriminate].
    intros H. inversion H; subst. apply rsplit_parts. exact E.
  - split.
    + intros H. apply rsplit_none in H. rewrite H. eexists. reflexivity.
    + intros [what H].
      destruct (Str.rsplit_underscore sym) as [[a b]|] eqn:E; [discriminate|].
      apply rsplit_none. exact E.
Qed.

Lemma split_symbol_round_trip_witness :
  no_underscore "12" = true
  /\ _split_symbol "S_rate_12" = Py.Ok ("S_rate", "12")%string
  /\ no_underscore "timer" = true
  /\ exists what, _split_symbol "timer" = Py.Raise (Py.ValueError what).
Proof.
  split; [reflexivity|]. split.
  - apply (proj1 (split_symbol_round_trip "" "S_rate" "12")). reflexivity.
  - split; [reflexivity|].
    apply (proj1 (proj2 (proj2 (split_symbol_round_trip "timer" "" "")))).
    reflexivity.
Defined.

(** *** Dicts *)

Lemma get_set_same {V} (d : Dict.t V) (k : string) (v : V) :
  Dict.get (Dict.set d k v) k = Some v.
Proof.
  induction d as [|[k' v'] d IH]; simpl.
  - rewrite String.eqb_refl. reflexivity.
  - destruct (String.eqb k k') eqn:E; simpl.
    + rewrite String.eqb_refl. reflexivity.
    + rewrite E. exact IH.
Qed.

Lemma get_in {V} (d : Dict.t V) (k : string) (v : V) :
  Dict.get d k = Some v -> In (k, v) d.
Proof.
  induction d as [|[k' v'] d IH]; simpl; [discriminate|].
  destruct (String.eqb k k') eqn:E.
  - intros H. inversion H; subst. apply String.eqb_eq in E. subst. auto.
  - auto.
Qed.

Lemma in_keys_get {V} (d : Dict.t V) (k : string) :
  In k (Dict.keys d) -> exists v, Dict.get d k = Some v.
Proof.
  unfold Dict.keys.
  induction d as [|[k' v'] d IH]; simpl; [intros []|].
  destruct (String.eqb k k') eqn:E; [eauto|].
  intros [H|H]; [|auto].
  subst k'. rewrite String.eqb_refl in E. discriminate.
Qed.

Lemma in_set {V} (d : Dict.t V) (k k' : string) (v v' : V) :
  In (k, v) (Dict.set d k' v') -> (k = k' /\ v = v') \/ In (k, v) d.
Proof.
  induction d as [|[k0 v0] d IH]; simpl.
  - intros [H|[]]. inversion H; auto.
  - destruct (String.eqb k' k0) eqn:E; simpl.
    + intros [H|H]; [inversion H; auto|auto].
    + intros [H|H]; [auto|]. destruct (IH H); auto.
Qed.

Lemma in_pair_keys {V} (d : Dict.t V) (k : string) (v : V) :
  In (k, v) d -> In k (Dict.keys d).
Proof. intros H. unfold Dict.keys. apply (in_map fst) in H. exact H. Qed.

(** *** _symbols *)

Lemma no_underscore_substring (s : string) (n m : nat) :
  no_underscore s = true -> no_underscore (String.substring n m s) = true.
Proof.
  revert n m. induction s as [|c s IH]; intros n m H.
  - destruct n, m; reflexivity.
  - simpl in H. apply andb_true_iff in H. destruct H as [Hc Hs].
    destruct n as [|n]; destruct m as [|m]; simpl; auto.
    rewrite Hc. simpl. auto.
Qed.

Lemma underscore_in_pattern (v : string) :
  no_underscore (v ++ "_") = false.
Proof.
  induction v as [|c v IH]; simpl; [reflexivity|].
  rewrite IH. apply andb_false_r.
Qed.

(** A key selected for a variable has an underscore. *)
Lemma selected_has_underscore (v var : string) :
  Str.contains (v ++ "_") var = true -> no_underscore var = false.
Proof.
  unfold Str.contains.
  destruct (String.index 0 (v ++ "_") var) as [m|] eqn:E; [|discriminate].
  intros _. apply String.index_correct1 in E.
  destruct (no_underscore var) eqn:N; trivial.
  apply (no_underscore_substring var m (String.length (v ++ "_"))) in N.
  rewrite E, underscore_in_pattern in N. discriminate.
Qed.

Lemma selected_splits (variables : list string) (var : string) :
  existsb (fun v => Str.contains (v ++ "_") var) variables = true ->
  exists s t, _split_symbol var = Py.Ok (s, t).
Proof.
  intros H. apply existsb_exists in H. destruct H as (v & _ & H).
  apply selected_has_underscore in H. unfold _split_symbol.
  destruct (Str.rsplit_underscore var) as [[s t]|] eqn:E; [eauto|].
  apply rsplit_none in E. congruence.
Qed.

(** Every symbol recorded in [symbols] is a key of [vals]. *)
Definition recorded_in (vals : Dict.t pyvalue)
           (symbols : Dict.t (Dict.t string)) : Prop :=
  forall var tps t sym,
    In (var, tps) symbols -> In (t, sym) tps -> In sym (Dict.keys vals).

Lemma symbols_loop_ok (vals : Dict.t pyvalue) (variables : list string)
      (keys : list string) (symbols : Dict.t (Dict.t string)) :
  (forall k, In k keys -> In k (Dict.keys vals)) ->
  recorded_in vals symbols ->
  exists r,
    _symbols_loop keys variables symbols = Py.Ok r /\ recorded_in vals r.
Proof.
  revert symbols. induction keys as [|var keys IH]; intros symbols Hk Hr.
  - exists symbols. split; [reflexivity|exact Hr].
  - simpl.
    assert (Hk' : forall k, In k keys -> In k (Dict.keys vals))
      by (intros k Hin; apply Hk; right; exact Hin).
    destruct (existsb _ variables) eqn:Sel; [|apply IH; assumption].
    destruct (selected_splits _ _ Sel) as (s & t & Hs). rewrite Hs. simpl.
    destruct (Str.truthy t); [|apply IH; assumption].
    set (symbols1 := if negb (Dict.mem symbols s)
                     then Dict.set symbols s [] else symbols).
    assert (H1 : recorded_in vals symbols1).
    { unfold symbols1. destruct (negb (Dict.mem symbols s)); [|exact Hr].
      intros var' tps t' sym Hin Hin'.
      apply in_set in Hin. destruct Hin as [[_ E]|Hin].
      - subst tps. destruct Hin'.
      - eapply Hr; eassumption. }
    assert (H2 : exists inner, Dict.get symbols1 s = Some inner).
    { unfold symbols1, Dict.mem.
      destruct (Dict.get symbols s) as [inner|] eqn:G; simpl.
      - rewrite G. eauto.
      - rewrite get_set_same. eauto. }
    destruct H2 as [inner G]. unfold getitem. rewrite G. simpl.
    apply IH; [assumption|].
    intros var' tps t' sym Hin Hin'.
    apply in_set in Hin. destruct Hin as [[_ E]|Hin].
    + subst tps. apply in_set in Hin'. destruct Hin' as [[_ E]|Hin'].
      * subst sym. apply Hk. left. reflexivity.
      * apply get_in in G. eapply H1; eassumption.
    + eapply H1; eassumption.
Qed.

(** X18. [_symbols] never raises: a key selected for a variable contains
    an underscore, so the two-name assignment of [_split_symbol] always
    has its two parts. Every symbol it records is a key of
    [point.values]. *)
Theorem symbols_never_raises (point : Point) (variables : list string) :
  exists r,
    _symbols point variables = Py.Ok r /\ recorded_in (values point) r.
Proof.
  unfold _symbols. apply symbols_loop_ok.
  - auto.
  - intros var tps t sym [].
Qed.

(** *** symbol_values *)

(** [{"x_0": 1.0, "x_1": 2.0, "y_bad": 9.0}] *)
Definition sample_point : Point :=
  mkPoint [("x_0", VFloat 1); ("x_1", VFloat 2); ("y_bad", VFloat 9)]%string
          "true".

(** [{"x_0": 10**400, "x_1": 2.0}] *)
Definition huge_point : Point :=
  mkPoint [("x_0", VInt (10 ^ 400)); ("x_1", VFloat 2)]%string "true".

(** Every value of the point converts to a float. *)
Definition converts (point : Point) : Prop :=
  forall k v, In (k, v) (values point) -> exists x, float v = Py.Ok x.

Lemma symbol_values_inner_ok (point : Point) (tps : Dict.t string)
      (ts : list string) (vals_var : Dict.t Q) (log : list string) :
  converts point ->
  (forall t, In t ts ->
             exists sym, Dict.get tps t = Some sym
                         /\ In sym (Dict.keys (values point))) ->
  exists r, symbol_values_inner point tps ts vals_var log = (Py.Ok r, log).
Proof.
  intros Hc. revert vals_var. induction ts as [|t ts IH]; intros vals_var Ht.
  - exists vals_var. reflexivity.
  - destruct (Ht t (or_introl Logic.eq_refl)) as (sym & G & Hin).
    destruct (in_keys_get _ _ Hin) as [v Gv].
    destruct (Hc sym v (get_in _ _ Gv)) as [x Hx].
    simpl. unfold Py.bind, Py.try_except, Py.lift, Py.ret, getitem.
    rewrite G, Gv, Hx.
    apply IH. intros t' Hin'. apply Ht. right. exact Hin'.
Qed.

Lemma symbol_values_outer_ok (point : Point) (vars : Dict.t (Dict.t string))
      (names : list string) (vals : Dict.t (Dict.t Q)) (log : list string) :
  converts point ->
  recorded_in (values point) vars ->
  (forall n, In n names -> In n (Dict.keys vars)) ->
  exists r,
    symbol_values_outer point vars names vals log = (Py.Ok r, log)
    /\ (names <> [] \/ vals <> [] -> r <> []).
Proof.
  intros Hc Hr. revert vals. induction names as [|var names IH]; intros vals Hn.
  - exists vals. split; [reflexivity|]. intros [H|H]; [congruence|exact H].
  - destruct (in_keys_get _ _ (Hn var (or_introl Logic.eq_refl))) as [tps G].
    destruct (@symbol_values_inner_ok point tps (Dict.keys tps) [] log Hc)
      as [inner Hi].
    { intros t Hin. destruct (in_keys_get _ _ Hin) as [sym Gs].
      exists sym. split; [exact Gs|].
      eapply Hr; [apply get_in; exact G|apply get_in; exact Gs]. }
    simpl. unfold Py.bind, Py.lift, getitem. rewrite G, Hi.
    destruct (IH (Dict.set vals var inner)) as (r & Hl & Hne).
    { intros n Hin. apply Hn. right. exact Hin. }
    exists r. split; [exact Hl|]. intros _. apply Hne. right.
    destruct vals as [|[k v] vals]; simpl; [discriminate|].
    destruct (String.eqb var k); discriminate.
Qed.

(** X19. When every value of the point converts to a float,
    [symbol_values] returns, for every list of variables, and logs
    nothing: no lookup of a recorded symbol or timepoint fails. *)
Theorem symbol_values_returns (point : Point) (variables : list string)
        (log : list string) :
  converts point ->
  exists vals, symbol_values point variables log = (Py.Ok vals, log).
Proof.
  intros Hc.
  destruct (symbols_never_raises point variables) as (vars & Hv & Hr).
  unfold symbol_values, Py.bind, Py.lift. rewrite Hv.
  destruct (@symbol_values_outer_ok point vars (Dict.keys vars) [] log Hc Hr)
    as (r & Hl & _); [auto|].
  exists r. exact Hl.
Qed.

Lemma symbol_values_returns_witness :
  exists vals,
    symbol_values sample_point ["x"; "y"]%string []
    = (Py.Ok vals, []).
Proof.
  apply (@symbol_values_returns sample_point ["x"; "y"]%string []).
  intros k v H. simpl in H.
  destruct H as [H|[H|[H|[]]]]; inversion H; eexists; reflexivity.
Defined.

(** *** symbol_timeseries *)

Definition empty_max : Py.exn :=
  Py.ValueError "max() arg is an empty sequence".

Lemma symbols_loop_no_variables (keys : list string)
      (symbols : Dict.t (Dict.t string)) :
  _symbols_loop keys [] symbols = Py.Ok symbols.
Proof. induction keys as [|k keys IH]; simpl; auto. Qed.

(** X20. When no symbol is selected, [symbol_timeseries] raises
    ValueError: [max] is applied to an empty list. An empty list of
    variables selects nothing, whatever the point holds. *)
Theorem timeseries_nothing_selected (point : Point)
        (variables : list string) (log : list string) :
  (_symbols point variables = Py.Ok [] ->
   symbol_timeseries point variables log = (Py.Raise empty_max, log))
  /\ symbol_timeseries point [] log = (Py.Raise empty_max, log).
Proof.
  assert (G : forall vs, _symbols point vs = Py.Ok [] ->
                         symbol_timeseries point vs log
                         = (Py.Raise empty_max, log)).
  { intros vs H. unfold symbol_timeseries, symbol_values, Py.bind, Py.lift.
    rewrite H. reflexivity. }
  split; [apply G|].
  apply G. unfold _symbols. apply symbols_loop_no_variables.
Qed.

Lemma timeseries_nothing_selected_witness :
  _symbols sample_point ["z"%string] = Py.Ok []
  /\ symbol_timeseries sample_point ["z"%string] []
     = (Py.Raise empty_max, []).
Proof.
  split; [reflexivity|].
  apply (proj1 (timeseries_nothing_selected sample_point
                  ["z"%string] [])).
  reflexivity.
Defined.

Lemma setitem_length {A} (vals vals' : list A) (i : nat) (v : A) :
  setitem vals i v = Py.Ok vals' -> List.length vals' = List.length vals.
Proof.
  revert i vals'. induction vals as [|x vals IH]; intros i vals'; simpl.
  - discriminate.
  - destruct i as [|i].
    + intros H. inversion H. reflexivity.
    + destruct (setitem vals i v) as [rest|e] eqn:E; simpl; [|discriminate].
      intros H. inversion H. simpl. f_equal. eapply IH. exact E.
Qed.

Lemma setitem_ok {A} (vals : list A) (i : nat) (v : A) :
  (i < List.length vals)%nat -> exists vals', setitem vals i v = Py.Ok vals'.
Proof.
  revert i. induction vals as [|x vals IH]; intros i H; simpl in *.
  - inversion H.
  - destruct i as [|i]; [eauto|].
    destruct (IH i) as [rest E]; [apply PeanoNat.Nat.succ_lt_mono; exact H|].
    rewrite E. simpl. eauto.
Qed.

Lemma fill_length (tps : Dict.t Q) (vals vals' : list cell) :
  fill tps vals = Py.Ok vals' -> List.length vals' = List.length vals.
Proof.
  revert vals. induction tps as [|[t v] tps IH]; intros vals; simpl.
  - intros H. inversion H. reflexivity.
  - destruct (Str.isdigit t); [|apply IH].
    destruct (setitem vals (Str.int t) (CFloat v)) as [vals1|e] eqn:E; simpl;
      [|discriminate].
    intros H. apply IH in H. rewrite H. eapply setitem_length. exact E.
Qed.

Lemma fill_ok (tps : Dict.t Q) (vals : list cell) :
  (forall t v, In (t, v) tps -> Str.isdigit t = true ->
               (Str.int t < List.length vals)%nat) ->
  exists vals', fill tps vals = Py.Ok vals'.
Proof.
  revert vals. induction tps as [|[t v] tps IH]; intros vals H; simpl.
  - eauto.
  - assert (H' : forall vals1, List.length vals1 = List.length vals ->
                 exists vals', fill tps vals1 = Py.Ok vals').
    { intros vals1 L. apply IH. intros t' v' Hin Hd. rewrite L.
      apply (H t' v'); [right; exact Hin|exact Hd]. }
    destruct (Str.isdigit t) eqn:D; [|apply H'; reflexivity].
    destruct (@setitem_ok _ vals (Str.int t) (CFloat v)) as [vals1 E].
    { apply (H t v); [left; reflexivity|exact D]. }
    rewrite E. simpl. apply H'. eapply setitem_length. exact E.
Qed.

Lemma in_keys_set {V} (d : Dict.t V) (k k' : string) (v : V) :
  In k (Dict.keys d) -> In k (Dict.keys (Dict.set d k' v)).
Proof.
  unfold Dict.keys. induction d as [|[k0 v0] d IH]; simpl; [intros []|].
  destruct (String.eqb k' k0) eqn:E; simpl.
  - apply String.eqb_eq in E. subst. auto.
  - intros [H|H]; auto.
Qed.

(** Every series of [a] has [n] slots. *)
Definition all_of_length (n : nat) (a : Dict.t (list cell)) : Prop :=
  forall k v, In (k, v) a -> List.length v = n.

Lemma timeseries_loop_lengths (series : Dict.t (Dict.t Q)) (max_t : nat)
      (a0 a : Dict.t (list cell)) :
  symbol_timeseries_loop series max_t a0 = Py.Ok a ->
  all_of_length (max_t + 1) a0 ->
  all_of_length (max_t + 1) a
  /\ (forall k, In k (Dict.keys a0) -> In k (Dict.keys a)).
Proof.
  revert a0. induction series as [|[var tps] series IH]; intros a0; simpl.
  - intros H. inversion H. auto.
  - destruct (fill tps (repeat CNone (max_t + 1))) as [vals|e] eqn:F; simpl;
      [|discriminate].
    intros H Ha. apply IH in H.
    + destruct H as [H1 H2]. split; [exact H1|].
      intros k Hk. apply H2. apply in_keys_set. exact Hk.
    + intros k v Hin. apply in_set in Hin. destruct Hin as [[_ E]|Hin].
      * subst v. apply fill_length in F. rewrite F. apply repeat_length.
      * eapply Ha. exact Hin.
Qed.


Lemma fold_max_bounds (xs : list nat) (x0 : nat) :
  (x0 <= fold_left Nat.max xs x0)%nat
  /\ forall x, In x xs -> (x <= fold_left Nat.max xs x0)%nat.
Proof.
  revert x0. induction xs as [|y xs IH]; intros x0; simpl.
  - split; [apply le_n|intros x []].
  - destruct (IH (Nat.max x0 y)) as [H1 H2]. split.
    + eapply PeanoNat.Nat.le_trans; [apply PeanoNat.Nat.le_max_l|exact H1].
    + intros x [E|Hin]; [|auto]. subst y.
      eapply PeanoNat.Nat.le_trans; [apply PeanoNat.Nat.le_max_r|exact H1].
Qed.

Lemma max_ok (xs : list nat) :
  xs <> [] ->
  exists m, max_ xs = Py.Ok m /\ forall x, In x xs -> (x <= m)%nat.
Proof.
  destruct xs as [|x0 xs]; [congruence|]. intros _.
  exists (fold_left Nat.max xs x0). split; [reflexivity|].
  destruct (fold_max_bounds xs x0) as [H1 H2].
  intros x [E|Hin]; [subst; exact H1|auto].
Qed.

(** The timepoints of [tps] that are digits are at most [m]. *)
Definition timepoints_within (m : nat) (tps : Dict.t Q) : Prop :=
  forall t v, In (t, v) tps -> Str.isdigit t = true -> (Str.int t <= m)%nat.

Lemma max_timepoint_ok (tps : Dict.t Q) :
  exists m, max_timepoint tps = Py.Ok m /\ timepoints_within m tps.
Proof.
  unfold max_timepoint.
  destruct (@max_ok (map Str.int (filter Str.isdigit (Dict.keys tps)) ++ [0%nat])%list)
    as (m & Hm & Hb).
  { intros E. apply app_eq_nil in E. destruct E as [_ E]. discriminate. }
  exists m. split; [exact Hm|].
  intros t v Hin Hd. apply Hb. apply in_or_app. left.
  apply in_map. apply filter_In. split; [|exact Hd].
  eapply in_pair_keys. exact Hin.
Qed.

Lemma max_timepoints_ok (series : Dict.t (Dict.t Q)) :
  exists ms,
    max_timepoints series = Py.Ok ms
    /\ (series <> [] -> ms <> [])
    /\ forall var tps, In (var, tps) series ->
                       exists m, In m ms /\ timepoints_within m tps.
Proof.
  induction series as [|[var tps] series IH]; simpl.
  - exists []. split; [reflexivity|]. split; [congruence|intros ? ? []].
  - destruct (max_timepoint_ok tps) as (m & Hm & Hw).
    destruct IH as (ms & Hms & _ & Hall).
    rewrite Hm, Hms. simpl. exists (m :: ms).
    split; [reflexivity|]. split; [discriminate|].
    intros var' tps' [E|Hin].
    + inversion E; subst. exists m. split; [left; reflexivity|exact Hw].
    + destruct (Hall _ _ Hin) as (m' & Hin' & Hw').
      exists m'. split; [right; exact Hin'|exact Hw'].
Qed.

Lemma timeseries_loop_ok (series : Dict.t (Dict.t Q)) (max_t : nat)
      (a0 : Dict.t (list cell)) :
  (forall var tps, In (var, tps) series -> timepoints_within max_t tps) ->
  exists a, symbol_timeseries_loop series max_t a0 = Py.Ok a.
Proof.
  revert a0. induction series as [|[var tps] series IH]; intros a0 H; simpl.
  - eauto.
  - destruct (fill_ok tps (repeat CNone (max_t + 1))) as [vals F].
    { intros t v Hin Hd. rewrite repeat_length.
      pose proof (H var tps (or_introl Logic.eq_refl) t v Hin Hd) as B.
      rewrite PeanoNat.Nat.add_1_r. apply PeanoNat.Nat.lt_succ_r. exact B. }
    rewrite F. simpl. apply IH.
    intros var' tps' Hin. apply (H var' tps'). right. exact Hin.
Qed.

(** The keys of the point are ASCII strings: [isdigit] and [int] are
    modelled on the ten ASCII digits. *)
Definition ascii_keys (point : Point) : bool :=
  forallb (fun k => forallb (fun c => (nat_of_ascii c <? 128)%nat)
                            (list_ascii_of_string k))
          (Dict.keys (values point)).

Lemma fold_max_in (xs : list nat) (x0 : nat) :
  fold_left Nat.max xs x0 = x0 \/ In (fold_left Nat.max xs x0) xs.
Proof.
  revert x0. induction xs as [|y xs IH]; intros x0; simpl; [auto|].
  destruct (IH (Nat.max x0 y)) as [E|Hin]; [|auto].
  rewrite E. destruct (PeanoNat.Nat.max_dec x0 y) as [M|M]; rewrite M; auto.
Qed.

Lemma max_is_largest (xs : list nat) (m : nat) :
  max_ xs = Py.Ok m -> In m xs /\ forall x, In x xs -> (x <= m)%nat.
Proof.
  destruct xs as [|x0 xs]; simpl; [discriminate|].
  intros H. inversion H; subst. clear H. split.
  - destruct (fold_max_in xs x0) as [E|Hin]; [left; symmetry; exact E|auto].
  - destruct (fold_max_bounds xs x0) as [H1 H2].
    intros x [E|Hin]; [subst; exact H1|auto].
Qed.

(** [m] is the largest digit timepoint of [series], or 0 when there is
    none. *)
Definition largest_timepoint (series : Dict.t (Dict.t Q)) (m : nat) : Prop :=
  (forall var tps t v,
      In (var, tps) series -> In (t, v) tps -> Str.isdigit t = true ->
      (Str.int t <= m)%nat)
  /\ (m = 0%nat
      \/ exists var tps t v,
          In (var, tps) series /\ In (t, v) tps
          /\ Str.isdigit t = true /\ Str.int t = m).

Lemma max_timepoint_largest (tps : Dict.t Q) (m : nat) :
  max_timepoint tps = Py.Ok m ->
  timepoints_within m tps
  /\ (m = 0%nat
      \/ exists t v, In (t, v) tps /\ Str.isdigit t = true /\ Str.int t = m).
Proof.
  unfold max_timepoint. intros H. apply max_is_largest in H.
  destruct H as [Hin Hb]. split.
  - intros t v Ht Hd. apply Hb. apply in_or_app. left.
    apply in_map. apply filter_In. split; [|exact Hd].
    eapply in_pair_keys. exact Ht.
  - apply in_app_or in Hin. destruct Hin as [Hin|[E|[]]]; [|auto].
    right. apply in_map_iff in Hin. destruct Hin as (t & E & Hin).
    apply filter_In in Hin. destruct Hin as [Hk Hd].
    unfold Dict.keys in Hk. apply in_map_iff in Hk.
    destruct Hk as ([t' v] & E' & Hk). simpl in E'. subst t'.
    exists t, v. auto.
Qed.

Lemma max_timepoints_members (series : Dict.t (Dict.t Q)) (ms : list nat) :
  max_timepoints series = Py.Ok ms ->
  (forall m, In m ms ->
             exists var tps, In (var, tps) series
                             /\ max_timepoint tps = Py.Ok m)
  /\ (forall var tps, In (var, tps) series ->
                      exists m, In m ms /\ max_timepoint tps = Py.Ok m).
Proof.
  revert ms. induction series as [|[var tps] series IH]; intros ms; simpl.
  - intros H. inversion H. split; [intros m []|intros var tps []].
  - destruct (max_timepoint tps) as [m0|e] eqn:E; simpl; [|discriminate].
    destruct (max_timepoints series) as [ms0|e]; simpl; [|discriminate].
    intros H. inversion H; subst. clear H.
    destruct (IH ms0 Logic.eq_refl) as [H1 H2]. split.
    + intros m [Em|Hin].
      * subst m0. exists var, tps. split; [left; reflexivity|exact E].
      * destruct (H1 m Hin) as (var' & tps' & Hs & Hm).
        exists var', tps'. split; [right; exact Hs|exact Hm].
    + intros var' tps' [Es|Hin].
      * inversion Es; subst. exists m0. split; [left; reflexivity|exact E].
      * destruct (H2 var' tps' Hin) as (m & Hm & Hmx).
        exists m. split; [right; exact Hm|exact Hmx].
Qed.

Lemma largest_of_series (series : Dict.t (Dict.t Q)) (ms : list nat)
      (max_t : nat) :
  max_timepoints series = Py.Ok ms -> max_ ms = Py.Ok max_t ->
  largest_timepoint series max_t.
Proof.
  intros Hms Hmax. apply max_timepoints_members in Hms.
  destruct Hms as [H1 H2]. apply max_is_largest in Hmax.
  destruct Hmax as [Hin Hb]. split.
  - intros var tps t v Hs Ht Hd.
    destruct (H2 var tps Hs) as (m & Hm & Hmx).
    apply max_timepoint_largest in Hmx. destruct Hmx as [Hw _].
    eapply PeanoNat.Nat.le_trans; [eapply Hw; eassumption|apply Hb; exact Hm].
  - destruct (H1 max_t Hin) as (var & tps & Hs & Hmx).
    apply max_timepoint_largest in Hmx. destruct Hmx as [_ [E|(t & v & Ht & Hd & E)]].
    + left. exact E.
    + right. exists var, tps, t, v. auto.
Qed.

Lemma get_set_other {V} (d : Dict.t V) (k k' : string) (v : V) :
  String.eqb k k' = false -> Dict.get (Dict.set d k' v) k = Dict.get d k.
Proof.
  intros N. induction d as [|[k0 v0] d IH]; simpl.
  - rewrite N. reflexivity.
  - destruct (String.eqb k' k0) eqn:E; simpl.
    + apply String.eqb_eq in E. subst k0. rewrite N. reflexivity.
    + destruct (String.eqb k k0); [reflexivity|exact IH].
Qed.

Lemma timeseries_loop_keeps (series : Dict.t (Dict.t Q)) (max_t : nat)
      (a0 a : Dict.t (list cell)) (k : string) :
  symbol_timeseries_loop series max_t a0 = Py.Ok a ->
  Dict.mem series k = false ->
  Dict.get a k = Dict.get a0 k.
Proof.
  revert a0. induction series as [|[var tps] series IH]; intros a0; simpl.
  - intros H _. inversion H. reflexivity.
  - destruct (fill tps (repeat CNone (max_t + 1))) as [vals|e]; simpl;
      [|discriminate].
    unfold Dict.mem. simpl.
    destruct (String.eqb k var) eqn:E; [discriminate|].
    intros H M. rewrite (IH _ H M). apply get_set_other. exact E.
Qed.

(** X21. On a point with ASCII keys, when [symbol_timeseries] returns,
    [symbol_values] has returned a series, and all the lists of the
    result have [max_t + 1] slots,
    where [max_t] is the largest digit timepoint of that series (0 when
    it has none). The key ["index"] is present, and holds
    [[0, ..., max_t]] unless a variable of that name has replaced it. *)
Theorem timeseries_same_length (point : Point) (variables : list string)
        (log log' : list string) (a : Dict.t (list cell)) :
  ascii_keys point = true ->
  symbol_timeseries point variables log = (Py.Ok a, log') ->
  exists series max_t,
    symbol_values point variables log = (Py.Ok series, log')
    /\ largest_timepoint series max_t
    /\ all_of_length (max_t + 1) a
    /\ In "index"%string (Dict.keys a)
    /\ (Dict.mem series "index" = false ->
        Dict.get a "index" = Some (map CInt (seq 0 (max_t + 1)))).
Proof.
  intros _.
  unfold symbol_timeseries, Py.bind, Py.lift.
  destruct (symbol_values point variables log) as [[series|e] l1];
    [|discriminate].
  destruct (max_timepoints series) as [ms|e] eqn:Hms; [|discriminate].
  destruct (max_ ms) as [max_t|e] eqn:Hmax; [|discriminate].
  destruct (symbol_timeseries_loop series max_t _) as [a1|e] eqn:L;
    [|discriminate].
  intros H. inversion H; subst. clear H.
  exists series, max_t.
  split; [reflexivity|]. split; [exact (@largest_of_series _ _ _ Hms Hmax)|].
  destruct (@timeseries_loop_lengths _ _ _ _ L) as [L1 L2].
  { intros k v [Hin|[]]. inversion Hin; subst.
    rewrite length_map, length_seq. reflexivity. }
  split; [exact L1|]. split; [apply L2; simpl; auto|].
  intros M. rewrite (@timeseries_loop_keeps _ _ _ _ _ L M). reflexivity.
Qed.

Lemma timeseries_same_length_witness :
  ascii_keys sample_point = true
  /\ exists series max_t,
    symbol_values sample_point ["x"%string] [] = (Py.Ok series, [])
    /\ largest_timepoint series max_t
    /\ all_of_length (max_t + 1)
         [("index"%string, [CInt 0; CInt 1]);
          ("x"%string, [CFloat 1; CFloat 2])]
    /\ In "index"%string
          (Dict.keys [("index"%string, [CInt 0; CInt 1]);
                      ("x"%string, [CFloat 1; CFloat 2])])
    /\ (Dict.mem series "index" = false ->
        Dict.get [("index"%string, [CInt 0; CInt 1]);
                  ("x"%string, [CFloat 1; CFloat 2])] "index"
        = Some (map CInt (seq 0 (max_t + 1)))).
Proof.
  split; [reflexivity|].
  apply (@timeseries_same_length sample_point ["x"%string] [] []).
  - reflexivity.
  - vm_compute. reflexivity.
Defined.

(** The timepoints recorded have at most six characters: [int] reads
    them and the lists of [max_t + 1] slots are built on every
    interpreter. *)
Definition short_timepoints (vars : Dict.t (Dict.t string)) : bool :=
  forallb (fun entry =>
             forallb (fun tp => (String.length (fst tp) <=? 6)%nat)
                     (snd entry))
          vars.

(** X22. When the keys of the point are ASCII, every value converts to a
    float, and the variables select at least one symbol, all with
    timepoints of at most six characters, [symbol_timeseries] returns and
    logs nothing: every digit timepoint has its slot, so no assignment is
    out of range. *)
Theorem timeseries_returns (point : Point) (variables : list string)
        (log : list string) (vars : Dict.t (Dict.t string)) :
  ascii_keys point = true ->
  converts point ->
  _symbols point variables = Py.Ok vars -> vars <> [] ->
  short_timepoints vars = true ->
  exists a, symbol_timeseries point variables log = (Py.Ok a, log).
Proof.
  intros _ Hc Hv Hne _.
  destruct (symbols_never_raises point variables) as (vars' & Hv' & Hr).
  rewrite Hv in Hv'. inversion Hv'; subst vars'. clear Hv'.
  destruct (@symbol_values_outer_ok point vars (Dict.keys vars) [] log Hc Hr)
    as (series & Hs & Hsne); [auto|].
  assert (Sne : series <> []).
  { apply Hsne. left. destruct vars; [congruence|discriminate]. }
  destruct (max_timepoints_ok series) as (ms & Hms & Hmne & Hall).
  destruct (@max_ok ms (Hmne Sne)) as (max_t & Hmax & Hb).
  destruct (@timeseries_loop_ok series max_t
              (Dict.set [] "index"%string (map CInt (seq 0 (max_t + 1)))))
    as [a Ha].
  { intros var tps Hin t v Hin' Hd.
    destruct (Hall _ _ Hin) as (m & Hm & Hw).
    eapply PeanoNat.Nat.le_trans; [eapply Hw; eassumption|apply Hb; exact Hm]. }
  exists a.
  unfold symbol_timeseries, symbol_values, Py.bind, Py.lift.
  rewrite Hv, Hs, Hms, Hmax, Ha. reflexivity.
Qed.

Lemma timeseries_returns_witness :
  ascii_keys sample_point = true
  /\ short_timepoints
       [("x", [("0", "x_0"); ("1", "x_1")]); ("y", [("bad", "y_bad")])]%string
     = true
  /\ exists a,
       symbol_timeseries sample_point ["x"; "y"]%string [] = (Py.Ok a, []).
Proof.
  split; [reflexivity|]. split; [reflexivity|].
  apply (@timeseries_returns sample_point ["x"; "y"]%string []
           [("x", [("0", "x_0"); ("1", "x_1")]); ("y", [("bad", "y_bad")])]%string).
  - reflexivity.
  - intros k v H. simpl in H.
    destruct H as [H|[H|[H|[]]]]; inversion H; eexists; reflexivity.
  - reflexivity.
  - discriminate.
  - reflexivity.
Defined.

(** *** Overflow *)

Definition unbound_logger : Py.exn := Py.NameError "l".

(** The value of the symbol recorded for timepoint [t] overflows. *)
Definition overflows (point : Point) (tps : Dict.t string) (t : string)
  : Prop :=
  exists sym v w,
    Dict.get tps t = Some sym
    /\ Dict.get (values point) sym = Some v
    /\ float v = Py.Raise (Py.OverflowError w).

Lemma float_cases (v : pyvalue) :
  (exists x, float v = Py.Ok x)
  \/ (exists w, float v = Py.Raise (Py.OverflowError w)).
Proof.
  destruct v as [x|n]; simpl; [eauto|].
  destruct (Z.abs n <? float_overflow_bound)%Z; eauto.
Qed.

Lemma symbol_values_inner_cases (point : Point) (tps : Dict.t string)
      (ts : list string) (vals_var : Dict.t Q) (log : list string) :
  (forall t, In t ts ->
             exists sym, Dict.get tps t = Some sym
                         /\ In sym (Dict.keys (values point))) ->
  (exists r, symbol_values_inner point tps ts vals_var log = (Py.Ok r, log)
             /\ forall t, In t ts -> ~ overflows point tps t)
  \/ symbol_values_inner point tps ts vals_var log
     = (Py.Raise unbound_logger, log).
Proof.
  revert vals_var. induction ts as [|t ts IH]; intros vals_var Ht.
  - left. exists vals_var. split; [reflexivity|intros t []].
  - destruct (Ht t (or_introl Logic.eq_refl)) as (sym & G & Hin).
    destruct (in_keys_get _ _ Hin) as [v Gv].
    simpl. unfold Py.bind, Py.try_except, Py.lift, Py.ret, getitem.
    rewrite G, Gv.
    destruct (float_cases v) as [[x Hx]|[w Hw]].
    + rewrite Hx.
      destruct (IH (Dict.set vals_var t x)) as [(r & Hr & Hno)|Hraise].
      { intros t' Hin'. apply Ht. right. exact Hin'. }
      * left. exists r. split; [exact Hr|].
        intros t' [E|Hin'] (sym' & v' & w' & G' & Gv' & Hw'); [|
          apply (Hno t' Hin'); exists sym', v', w'; auto].
        subst t'. congruence.
      * right. exact Hraise.
    + rewrite Hw. right. reflexivity.
Qed.

Lemma symbol_values_outer_cases (point : Point)
      (vars : Dict.t (Dict.t string)) (names : list string)
      (vals : Dict.t (Dict.t Q)) (log : list string) :
  recorded_in (values point) vars ->
  (forall n, In n names -> In n (Dict.keys vars)) ->
  (exists r, symbol_values_outer point vars names vals log = (Py.Ok r, log)
             /\ forall n tps t,
                 In n names -> Dict.get vars n = Some tps ->
                 In t (Dict.keys tps) -> ~ overflows point tps t)
  \/ symbol_values_outer point vars names vals log
     = (Py.Raise unbound_logger, log).
Proof.
  intros Hr. revert vals. induction names as [|var names IH]; intros vals Hn.
  - left. exists vals. split; [reflexivity|intros n tps t []].
  - destruct (in_keys_get _ _ (Hn var (or_introl Logic.eq_refl))) as [tps G].
    simpl. unfold Py.bind, Py.lift, getitem. rewrite G.
    destruct (@symbol_values_inner_cases point tps (Dict.keys tps) [] log)
      as [(inner & Hi & Hno)|Hraise].
    { intros t Hin. destruct (in_keys_get _ _ Hin) as [sym Gs].
      exists sym. split; [exact Gs|].
      eapply Hr; [apply get_in; exact G|apply get_in; exact Gs]. }
    + rewrite Hi.
      destruct (IH (Dict.set vals var inner)) as [(r & Hl & Hno')|Hraise].
      { intros n Hin. apply Hn. right. exact Hin. }
      * left. exists r. split; [exact Hl|].
        intros n tps' t [E|Hin] G' Ht.
        -- subst n. rewrite G in G'. inversion G'; subst tps'. auto.
        -- eapply Hno'; eassumption.
      * right. exact Hraise.
    + rewrite Hraise. right. reflexivity.
Qed.

(** X23. When the value of one recorded symbol overflows,
    [symbol_values] raises NameError from its handler, whatever the other
    values are, and logs nothing; [symbol_timeseries] raises with it. *)
Theorem overflow_always_aborts (point : Point) (variables : list string)
        (log : list string) (vars : Dict.t (Dict.t string))
        (var t : string) (tps : Dict.t string) :
  _symbols point variables = Py.Ok vars ->
  Dict.get vars var = Some tps ->
  overflows point tps t ->
  symbol_values point variables log = (Py.Raise unbound_logger, log)
  /\ symbol_timeseries point variables log = (Py.Raise unbound_logger, log).
Proof.
  intros Hv G Ho.
  destruct (symbols_never_raises point variables) as (vars' & Hv' & Hr).
  rewrite Hv in Hv'. inversion Hv'; subst vars'. clear Hv'.
  assert (E : symbol_values point variables log
              = (Py.Raise unbound_logger, log)).
  { unfold symbol_values, Py.bind, Py.lift. rewrite Hv.
    destruct (@symbol_values_outer_cases point vars (Dict.keys vars) [] log Hr)
      as [(r & _ & Hno)|Hraise]; [auto| |exact Hraise].
    exfalso. apply (Hno var tps t); [|exact G| |exact Ho].
    - eapply in_pair_keys. apply get_in. exact G.
    - destruct Ho as (sym & _ & _ & Gs & _).
      eapply in_pair_keys. apply get_in. exact Gs. }
  split; [exact E|].
  unfold symbol_timeseries, Py.bind. rewrite E. reflexivity.
Qed.

Lemma overflow_always_aborts_witness :
  symbol_values huge_point ["x"%string] []
  = (Py.Raise unbound_logger, [])
  /\ symbol_timeseries huge_point ["x"%string] []
     = (Py.Raise unbound_logger, []).
Proof.
  apply (@overflow_always_aborts huge_point ["x"%string] []
           [("x", [("0", "x_0"); ("1", "x_1")])]%string
           "x"%string "0"%string [("0", "x_0"); ("1", "x_1")]%string).
  - reflexivity.
  - reflexivity.
  - exists "x_0"%string, (VInt (10 ^ 400)),
      "int too large to convert to float"%string.
    split; [reflexivity|]. split; [reflexivity|].
    vm_compute. reflexivity.
Defined.

End QueryExtraction.

(* ===================================================================== *)
(** ** The life cycle of an aggregator                                   *)
(* ===================================================================== *)

Module QueryLifecycle.

Import Query.

(** One call made on an aggregator. *)
Inductive call : Type :=
| Update (scenario : AnalysisScenario) (results : ParameterSpace)
| Finalize (scenario : AnalysisScenario) (result : ScenarioResult)
| FinalizeAsError.

Definition returned (r : Py.result unit) : nat :=
  match r with Py.Ok _ => 1 | Py.Raise _ => 0 end.

(** The aggregator after one call, and whether the call was a finalize
    call that returned. *)
Definition step (self : FunmanResults) (c : call) : FunmanResults * nat :=
  match c with
  | Update scenario results =>
      (fst (update_parameter_space self scenario results), 0%nat)
  | Finalize scenario result =>
      (fst (finalize_result self scenario result),
       returned (snd (finalize_result self scenario result)))
  | FinalizeAsError =>
      (fst (finalize_result_as_error self),
       returned (snd (finalize_result_as_error self)))
  end.

(** The aggregator after a sequence of calls, raised errors caught by the
    caller, and the number of finalize calls that returned. *)
Fixpoint run (self : FunmanResults) (n : nat) (calls : list call)
  : FunmanResults * nat :=
  match calls with
  | [] => (self, n)
  | c :: calls' =>
      run (fst (step self c)) (n + snd (step self c))%nat calls'
  end.

Definition fresh (id_ : string) (model_ : Model) (request_ : FunmanWorkRequest)
  : FunmanResults := FunmanResults_init id_ model_ request_.

Definition consistent (self : FunmanResults) (n : nat) : Prop :=
  (n <= 1)%nat
  /\ (done self = true <-> n = 1%nat)
  /\ (done self = true -> is_final self = true)
  /\ (error self = true -> done self = true).

Lemma step_consistent (self : FunmanResults) (n : nat) (c : call) :
  consistent self n ->
  consistent (fst (step self c)) (n + snd (step self c)).
Proof.
  unfold consistent, is_final. intros (Hn & Hd & Hf & He).
  assert (Z0 : _finalized self = false -> n = 0%nat /\ done self = false
                                          /\ error self = false).
  { intros F. destruct (done self) eqn:D.
    - rewrite (Hf Logic.eq_refl) in F. discriminate.
    - destruct (error self) eqn:E; [specialize (He Logic.eq_refl); discriminate|].
      repeat split. destruct n as [|[|n]]; trivial.
      + destruct Hd as [_ Hd]. specialize (Hd Logic.eq_refl). discriminate.
      + inversion Hn. inversion H0. }
  destruct c as [sc ps|sc res|]; simpl.
  - rewrite PeanoNat.Nat.add_0_r. auto.
  - unfold finalize_result.
    destruct (_finalized self) eqn:F; simpl.
    + rewrite PeanoNat.Nat.add_0_r, F. auto.
    + destruct (Z0 Logic.eq_refl) as (N & D & E). subst n.
      destruct res as [[ps|]|[ps|]|]; simpl; rewrite ?D, ?E;
        repeat split; auto; try discriminate.
  - unfold finalize_result_as_error.
    destruct (_finalized self) eqn:F; simpl.
    + rewrite PeanoNat.Nat.add_0_r, F. auto.
    + destruct (Z0 Logic.eq_refl) as (N & D & E). subst n.
      repeat split; auto.
Qed.

Lemma run_consistent (calls : list call) (self : FunmanResults) (n : nat) :
  consistent self n ->
  consistent (fst (run self n calls)) (snd (run self n calls)).
Proof.
  revert self n. induction calls as [|c calls IH]; intros self n H; simpl.
  - exact H.
  - apply IH. apply step_consistent. exact H.
Qed.

Lemma fresh_consistent (id_ : string) (model_ : Model)
      (request_ : FunmanWorkRequest) :
  consistent (fresh id_ model_ request_) 0.
Proof.
  unfold consistent. simpl. repeat split; auto; discriminate.
Qed.

(** X24. Whatever calls are made on a freshly constructed aggregator, in
    whatever order and with whatever arguments, [done] implies
    [is_final()] and [error] implies [done]. *)
Theorem done_implies_final (id_ : string) (model_ : Model)
        (request_ : FunmanWorkRequest) (calls : list call) :
  (done (fst (run (fresh id_ model_ request_) 0 calls)) = true ->
   is_final (fst (run (fresh id_ model_ request_) 0 calls)) = true)
  /\ (error (fst (run (fresh id_ model_ request_) 0 calls)) = true ->
      done (fst (run (fresh id_ model_ request_) 0 calls)) = true).
Proof.
  destruct (@run_consistent calls _ _ (fresh_consistent id_ model_ request_))
    as (_ & _ & H1 & H2).
  split; assumption.
Qed.

Definition some_scenario : AnalysisScenario := mkAnalysisScenario 4 8.

Definition some_space : ParameterSpace := mkParameterSpace [] [] 1.

Definition some_calls : list call :=
  [ Finalize some_scenario (ConsistencyScenarioResult (Some some_space));
    Update some_scenario some_space;
    FinalizeAsError;
    Finalize some_scenario (ParameterSynthesisScenarioResult (Some some_space)) ].

Definition some_request : FunmanWorkRequest :=
  mkFunmanWorkRequest None None None None None.

Lemma done_implies_final_witness :
  done (fst (run (fresh "id" PetrinetModel some_request) 0 some_calls)) = true
  /\ is_final (fst (run (fresh "id" PetrinetModel some_request) 0 some_calls))
     = true
  /\ error (fst (run (fresh "id" PetrinetModel some_request) 0 some_calls))
     = false.
Proof.
  split; [reflexivity|]. split; [|reflexivity].
  apply (proj1 (done_implies_final "id" PetrinetModel some_request some_calls)).
  reflexivity.
Defined.

(** X25. Whatever calls are made on a freshly constructed aggregator, at
    most one finalize call, of either kind, returns; [done] is set exactly
    when one has. *)
Theorem at_most_one_finalize_returns (id_ : string) (model_ : Model)
        (request_ : FunmanWorkRequest) (calls : list call) :
  (snd (run (fresh id_ model_ request_) 0 calls) <= 1)%nat
  /\ (done (fst (run (fresh id_ model_ request_) 0 calls)) = true
      <-> snd (run (fresh id_ model_ request_) 0 calls) = 1%nat).
Proof.
  destruct (@run_consistent calls _ _ (fresh_consistent id_ model_ request_))
    as (H1 & H2 & _).
  split; assumption.
Qed.

Lemma at_most_one_finalize_returns_witness :
  done (fst (run (fresh "id" PetrinetModel some_request) 0 some_calls)) = true
  /\ snd (run (fresh "id" PetrinetModel some_request) 0 some_calls) = 1%nat.
Proof.
  split; [reflexivity|].
  apply (proj2 (at_most_one_finalize_returns "id" PetrinetModel some_request
                  some_calls)).
  reflexivity.
Defined.

(** X26. [update_parameter_space] can be repeated: a second call with the
    same arguments changes nothing and returns the same progress. It
    stores the parameter space it is given and leaves [is_final()], [done]
    and [error] as they were; with a search volume of 0 the coverage of
    the search space and the progress are 0. *)
Theorem update_parameter_space_repeatable (self : FunmanResults)
        (scenario : AnalysisScenario) (results : ParameterSpace) :
  update_parameter_space
    (fst (update_parameter_space self scenario results)) scenario results
  = update_parameter_space self scenario results
  /\ parameter_space (fst (update_parameter_space self scenario results))
     = Some results
  /\ is_final (fst (update_parameter_space self scenario results))
     = is_final self
  /\ done (fst (update_parameter_space self scenario results)) = done self
  /\ error (fst (update_parameter_space self scenario results)) = error self
  /\ (Qeq_bool (search_space_volume scenario) 0 = true ->
      snd (update_parameter_space self scenario results)
      = mkFunmanProgress 0 0
          (coverage_of_representable_space
             (snd (update_parameter_space self scenario results)))).
Proof.
  unfold update_parameter_space, is_final. simpl.
  repeat split. intros H. rewrite H. reflexivity.
Qed.

Lemma update_parameter_space_repeatable_witness :
  Qeq_bool 0 0 = true
  /\ snd (update_parameter_space (fresh "id" PetrinetModel
                                         (mkFunmanWorkRequest None None None
                                                              None None))
                                 (mkAnalysisScenario 0 8)
                                 (mkParameterSpace [] [] 3))
     = mkFunmanProgress 0 0 (0 / 8).
Proof.
  split; [reflexivity|].
  apply (proj2 (proj2 (proj2 (proj2 (proj2
           (update_parameter_space_repeatable
              (fresh "id" PetrinetModel
                     (mkFunmanWorkRequest None None None None None))
              (mkAnalysisScenario 0 8) (mkParameterSpace [] [] 3))))))).
  reflexivity.
Defined.

(** X27. [update_parameter_space] is not guarded by the finalized flag:
    called after a [finalize_result] that returned, it keeps [is_final()]
    and [done] set, replaces the parameter space, and replaces the
    progress of 1.0 by the progress the call computes from its own
    arguments, the same on any aggregator; with a search volume of 0 that
    progress is 0. *)
Theorem update_after_finalize (self self' other : FunmanResults)
        (scenario scenario2 : AnalysisScenario) (result : ScenarioResult)
        (results2 : ParameterSpace) :
  finalize_result self scenario result = (self', Py.Ok tt) ->
  progress_ (progress self') = 1
  /\ is_final (fst (update_parameter_space self' scenario2 results2)) = true
  /\ done (fst (update_parameter_space self' scenario2 results2)) = true
  /\ parameter_space (fst (update_parameter_space self' scenario2 results2))
     = Some results2
  /\ progress (fst (update_parameter_space self' scenario2 results2))
     = snd (update_parameter_space other scenario2 results2)
  /\ (Qeq_bool (search_space_volume scenario2) 0 = true ->
      progress_ (progress (fst (update_parameter_space self' scenario2
                                                       results2)))
      = 0).
Proof.
  unfold finalize_result.
  destruct (_finalized self); [discriminate|].
  destruct result as [[ps|]|[ps|]|]; try discriminate;
    intros H; inversion H; subst; simpl; repeat split;
    intros Z; rewrite Z; reflexivity.
Qed.

Definition finalized_aggregator : FunmanResults :=
  mkFunmanResults true "id" PetrinetModel
                  (mkFunmanProgress 1 (1 / 4) (4 / 8)) some_request
                  true false (Some some_space).

Lemma update_after_finalize_witness :
  finalize_result (fresh "id" PetrinetModel some_request) some_scenario
                  (ConsistencyScenarioResult (Some some_space))
  = (finalized_aggregator, Py.Ok tt)
  /\ progress_ (progress finalized_aggregator) = 1
  /\ Qeq_bool (search_space_volume (mkAnalysisScenario 0 8)) 0 = true
  /\ progress_
       (progress (fst (update_parameter_space finalized_aggregator
                         (mkAnalysisScenario 0 8) some_space)))
     = 0.
Proof.
  split; [reflexivity|]. split; [reflexivity|]. split; [reflexivity|].
  apply (proj2 (proj2 (proj2 (proj2 (proj2
           (@update_after_finalize
              (fresh "id" PetrinetModel some_request) finalized_aggregator
              (fresh "id" PetrinetModel some_request)
              some_scenario (mkAnalysisScenario 0 8)
              (ConsistencyScenarioResult (Some some_space)) some_space
              Logic.eq_refl)))))).
  reflexivity.
Defined.

End QueryLifecycle.

(* ===================================================================== *)
(** ** Dispatch                                                          *)
(* ===================================================================== *)

Module QueryDispatch.

Import Query.

(** What [to_scenario] does, without what it builds. *)
Inductive outcome : Type :=
| Consistency
| ParameterSynthesis
| Raised (e : Py.exn).

Definition outcome_of (r : Py.result Scenario) : outcome :=
  match r with
  | Py.Ok (ConsistencyScenario _ _ _ _) => Consistency
  | Py.Ok (ParameterSynthesisScenario _ _ _ _) => ParameterSynthesis
  | Py.Raise e => Raised e
  end.

Definition scenario_parameters (r : Py.result Scenario) : list Parameter_ :=
  match r with
  | Py.Ok (ConsistencyScenario _ _ ps _) => ps
  | Py.Ok (ParameterSynthesisScenario _ _ ps _) => ps
  | Py.Raise _ => []
  end.

Definition is_StructureParameter (p : Parameter_) : bool :=
  match p with StructureParameter _ _ _ _ => true | _ => false end.

(** The same work unit with other structure parameters. *)
Definition with_structure_parameters (self : FunmanWorkUnit)
           (sps : option (list LabeledParameter)) : FunmanWorkUnit :=
  mkFunmanWorkUnit (wu_id self) (wu_progress self) (wu_model self)
    (mkFunmanWorkRequest (query (wu_request self))
                         (constraints (wu_request self))
                         (parameters (wu_request self))
                         (config (wu_request self)) sps).

Definition count (ps : option (list LabeledParameter)) : nat :=
  match ps with Some l => List.length l | None => 0%nat end.

(** X28. The structure parameters of a request have no part in the
    dispatch: replacing them changes neither the kind of scenario
    returned nor the error raised, also when they carry a label other
    than [LABEL_ANY]. A scenario that is returned lists one parameter per
    model parameter and per structure parameter of the request, and its
    structure parameters are exactly as many as the request's. *)
Theorem dispatch_ignores_structure_parameters
        (LABEL_ANY : string) (self : FunmanWorkUnit)
        (sps : option (list LabeledParameter)) :
  outcome_of (to_scenario LABEL_ANY (with_structure_parameters self sps))
  = outcome_of (to_scenario LABEL_ANY self)
  /\ (forall sc,
        to_scenario LABEL_ANY self = Py.Ok sc ->
        List.length (scenario_parameters (Py.Ok sc))
        = (count (parameters (wu_request self))
           + count (structure_parameters (wu_request self)))%nat
        /\ List.length (filter is_StructureParameter
                          (scenario_parameters (Py.Ok sc)))
           = count (structure_parameters (wu_request self))).
Proof.
  assert (L : forall (ps sps' : option (list LabeledParameter)),
             let built :=
               ((match ps with
                 | Some l => map (fun data => ModelParameter (name data)
                                   (p_ub data) (p_lb data) (label data)) l
                 | None => []
                 end)
                ++ (match sps' with
                    | Some l => map (fun data => StructureParameter (name data)
                                      (p_ub data) (p_lb data) (label data)) l
                    | None => []
                    end))%list in
             List.length built = (count ps + count sps')%nat
             /\ List.length (filter is_StructureParameter built) = count sps').
  { intros ps sps'. simpl. split.
    - rewrite length_app. destruct ps, sps'; simpl;
        rewrite ?length_map; reflexivity.
    - rewrite filter_app.
      assert (M : forall l, filter is_StructureParameter
                  (map (fun data => ModelParameter (name data) (p_ub data)
                                      (p_lb data) (label data)) l) = []).
      { induction l as [|x l IH]; simpl; auto. }
      assert (S : forall l, filter is_StructureParameter
                  (map (fun data => StructureParameter (name data) (p_ub data)
                                      (p_lb data) (label data)) l)
                  = map (fun data => StructureParameter (name data) (p_ub data)
                                      (p_lb data) (label data)) l).
      { induction l as [|x l IH]; simpl; [|rewrite IH]; auto. }
      destruct ps, sps'; simpl; rewrite ?M, ?S; simpl;
        rewrite ?length_map; reflexivity. }
  unfold to_scenario. split.
  - destruct self as [i p m [q c ps cf sp]]. simpl.
    destruct ps as [l|]; simpl.
    + destruct (forallb _ l); [reflexivity|].
      destruct m; reflexivity.
    + reflexivity.
  - intros sc.
    specialize (L (parameters (wu_request self))
                  (structure_parameters (wu_request self))).
    simpl in L.
    destruct (match parameters (wu_request self) with
              | Some ps => forallb _ ps
              | None => true
              end).
    + intros H. inversion H; subst. exact L.
    + destruct (isinstance_EnsembleModel (wu_model self)); [discriminate|].
      intros H. inversion H; subst. exact L.
Qed.

Definition synthesis_unit : FunmanWorkUnit :=
  mkFunmanWorkUnit "id" FunmanProgress_default PetrinetModel
    (mkFunmanWorkRequest None None
       (Some [mkLabeledParameter "beta" (Fin 0) (Fin 1) "all"]) None
       (Some [mkLabeledParameter "num_steps" (Fin 1) (Fin 9) "all";
              mkLabeledParameter "step_size" (Fin 1) (Fin 2) "any"])).

Lemma dispatch_ignores_structure_parameters_witness :
  to_scenario "any" synthesis_unit
  = Py.Ok (ParameterSynthesisScenario PetrinetModel QueryTrue
             [ModelParameter "beta" (Fin 1) (Fin 0) "all";
              StructureParameter "num_steps" (Fin 9) (Fin 1) "all";
              StructureParameter "step_size" (Fin 2) (Fin 1) "any"] None)
  /\ List.length
       [ModelParameter "beta" (Fin 1) (Fin 0) "all";
        StructureParameter "num_steps" (Fin 9) (Fin 1) "all";
        StructureParameter "step_size" (Fin 2) (Fin 1) "any"] = 3%nat.
Proof.
  split; [reflexivity|].
  apply (proj1 (proj2 (dispatch_ignores_structure_parameters
                         "any" synthesis_unit None) _ Logic.eq_refl)).
Defined.

End QueryDispatch.

(* ===================================================================== *)
(** ** The bounds as the field type admits them                          *)
(* ===================================================================== *)

(** A value of [lb] or [ub] as [Optional[Union[float, str]]] admits it
    (interval.py, lines 19-20): [None], a float, NaN and the infinities
    among them, or a string, the two sentinels among them. [Bound] holds
    the finite floats and the sentinels only. *)
Inductive field : Type :=
| FieldNone
| FieldFloat (x : pyfloat)
| FieldStr (s : string).

(** An Interval whose bounds are any values of the field type. *)
Record WideInterval : Type := mkWide {
  wide_lb : field;
  wide_ub : field;
  wide_closed_upper_bound : bool;
  wide_cached_width : option Q
}.

Module Wide.

Local Open Scope py_scope.

(** Python [x == y] on floats: NaN is equal to nothing, itself included. *)
Definition float_eq (x y : pyfloat) : bool :=
  match x, y with
  | FFin a, FFin b => Qeq_bool a b
  | FPosInf, FPosInf => true
  | FNegInf, FNegInf => true
  | _, _ => false
  end.

(** Python [x <= y] on floats: [False] as soon as one is NaN. *)
Definition float_le (x y : pyfloat) : bool :=
  match x, y with
  | FNaN, _ | _, FNaN => false
  | FNegInf, _ => true
  | _, FPosInf => true
  | FFin a, FFin b => Qle_bool a b
  | _, _ => false
  end.

(** Python [a == b]: [None] is equal to [None], floats by value, strings
    by content; values of two kinds are never equal. *)
Definition eq (a b : field) : bool :=
  match a, b with
  | FieldNone, FieldNone => true
  | FieldFloat x, FieldFloat y => float_eq x y
  | FieldStr s, FieldStr t => String.eqb s t
  | _, _ => false
  end.

(** Python [a <= b]: floats by value, strings lexicographically; [None],
    or a float against a string, is a TypeError. *)
Definition le (a b : field) : Py.result bool :=
  match a, b with
  | FieldFloat x, FieldFloat y => Py.Ok (float_le x y)
  | FieldStr s, FieldStr t => Py.Ok (String.leb s t)
  | FieldNone, _ | _, FieldNone =>
      Py.Raise (Py.TypeError "'<=' not supported with 'NoneType'")
  | _, _ =>
      Py.Raise (Py.TypeError "'<=' not supported between 'float' and 'str'")
  end.

(** [format(a, ".5f")]: a float is formatted, the code [f] does not apply
    to a string (ValueError), and [None] takes no format string
    (TypeError). *)
Definition format_5f (a : field) : Py.result string :=
  match a with
  | FieldFloat (FFin x) => Py.Ok (Bounds.format_5f_Q x)
  | FieldFloat FPosInf => Py.Ok "inf"%string
  | FieldFloat FNegInf => Py.Ok "-inf"%string
  | FieldFloat FNaN => Py.Ok "nan"%string
  | FieldStr _ =>
      Py.Raise (Py.ValueError "Unknown format code 'f' for object of type 'str'")
  | FieldNone =>
      Py.Raise (Py.TypeError "unsupported format string passed to NoneType.__format__")
  end.

(** [__eq__] *)
Definition __eq__ (self other : WideInterval) : bool :=
  eq (wide_lb self) (wide_lb other) && eq (wide_ub self) (wide_ub other).

(** [is_point] *)
Definition is_point (self : WideInterval) : bool :=
  eq (wide_lb self) (wide_ub self) && wide_closed_upper_bound self.

(** [__str__] *)
Definition __str__ (self : WideInterval) : Py.result string :=
  let ub_ := (if wide_closed_upper_bound self then "]" else ")")%string in
  l_ <~ format_5f (wide_lb self) ;;
  u_ <~ format_5f (wide_ub self) ;;
  Py.Ok ("[" ++ l_ ++ ", " ++ u_ ++ ub_)%string.

(** [check_interval] *)
Definition check_interval (self : WideInterval) : Py.M WideInterval :=
  if eq (wide_lb self) (wide_ub self) && negb (wide_closed_upper_bound self)
  then
    s <- Py.lift (__str__ self) ;;
    Py.warning (s ++ Interval.equal_bounds_text)%string ;;;
    Py.ret (mkWide (wide_lb self) (wide_ub self) true (wide_cached_width self))
  else Py.ret self.

(** [Interval(lb=..., ub=..., closed_upper_bound=...)]: a ValueError of
    the validator is reported as a ValidationError; a TypeError is not
    caught. *)
Definition init (lb_ ub_ : field) (closed : bool) : Py.M WideInterval :=
  fun log =>
    match check_interval (mkWide lb_ ub_ closed None) log with
    | (Py.Raise (Py.ValueError w), log') =>
        (Py.Raise (Py.ValidationError w), log')
    | r => r
    end.

(** [from_value] *)
Definition from_value (v : field) : Py.M WideInterval := init v v true.

Section Sentinels.

(** The two strings of funman.constants. *)
Variable NEG POS : string.

Definition of_bound (b : Bound) : field :=
  match b with
  | NEG_INFINITY => FieldStr NEG
  | POS_INFINITY => FieldStr POS
  | Fin x => FieldFloat (FFin x)
  end.

Definition of_interval (i : Interval) : WideInterval :=
  mkWide (of_bound (lb i)) (of_bound (ub i)) (closed_upper_bound i)
         (cached_width i).

(** [contains] *)
Definition contains (self other : WideInterval) : Py.result bool :=
  lhs <~ (if eq (wide_lb self) (FieldStr NEG)
             || eq (wide_lb other) (FieldStr NEG)
          then Py.Ok (eq (wide_lb self) (FieldStr NEG)
                      || negb (eq (wide_lb other) (FieldStr NEG)))
          else le (wide_lb self) (wide_lb other)) ;;
  rhs <~ (if eq (wide_ub self) (FieldStr POS)
             || eq (wide_ub other) (FieldStr POS)
          then Py.Ok (negb (eq (wide_ub other) (FieldStr POS))
                      || eq (wide_ub self) (FieldStr POS))
          else le (wide_ub other) (wide_ub self)) ;;
  Py.Ok (lhs && rhs).

End Sentinels.

End Wide.

Module WideFacts.

(** *** Order on strings *)

Lemma string_compare_refl (s : string) : String.compare s s = Eq.
Proof.
  induction s as [|c s IH]; simpl; [reflexivity|].
  unfold Ascii.compare. rewrite N.compare_refl. exact IH.
Qed.

Lemma string_compare_trans (s t u : string) :
  String.compare s t <> Gt -> String.compare t u <> Gt ->
  String.compare s u <> Gt.
Proof.
  revert t u. induction s as [|a s IH]; intros [|b t] [|c u]; simpl;
    try congruence.
  unfold Ascii.compare.
  destruct (N.compare_spec (N_of_ascii a) (N_of_ascii b)) as [E1|L1|G1];
    destruct (N.compare_spec (N_of_ascii b) (N_of_ascii c)) as [E2|L2|G2];
    destruct (N.compare_spec (N_of_ascii a) (N_of_ascii c)) as [E3|L3|G3];
    try congruence; try lia.
  apply IH.
Qed.

Lemma leb_refl (s : string) : String.leb s s = true.
Proof. unfold String.leb. rewrite string_compare_refl. reflexivity. Qed.

Lemma leb_trans (s t u : string) :
  String.leb s t = true -> String.leb t u = true -> String.leb s u = true.
Proof.
  unfold String.leb. intros H1 H2.
  pose proof (@string_compare_trans s t u) as T.
  destruct (String.compare s t); try discriminate;
    destruct (String.compare t u); try discriminate;
    destruct (String.compare s u); trivial;
    exfalso; apply T; congruence.
Qed.

(** *** [==] and [<=] on field values *)

Definition is_nan (a : field) : bool :=
  match a with FieldFloat FNaN => true | _ => false end.

(** Neither [None] nor NaN. *)
Definition comparable (a : field) : bool :=
  match a with
  | FieldNone | FieldFloat FNaN => false
  | _ => true
  end.

Lemma Qeq_bool_sym (x y : Q) : Qeq_bool x y = Qeq_bool y x.
Proof.
  destruct (Qeq_bool x y) eqn:E, (Qeq_bool y x) eqn:F; trivial.
  - apply Qeq_bool_iff in E. symmetry in E. apply Qeq_bool_iff in E. congruence.
  - apply Qeq_bool_iff in F. symmetry in F. apply Qeq_bool_iff in F. congruence.
Qed.

Lemma Qeq_bool_trans_true (x y z : Q) :
  Qeq_bool x y = true -> Qeq_bool y z = true -> Qeq_bool x z = true.
Proof.
  rewrite !Qeq_bool_iff. intros H1 H2. rewrite H1. exact H2.
Qed.

Lemma Qle_bool_trans_true (x y z : Q) :
  Qle_bool x y = true -> Qle_bool y z = true -> Qle_bool x z = true.
Proof.
  rewrite !Qle_bool_iff. intros H1 H2. eapply Qle_trans; eassumption.
Qed.

Lemma field_eq_sym (a b : field) : Wide.eq a b = Wide.eq b a.
Proof.
  destruct a as [|[| | |x]|s], b as [|[| | |y]|t]; simpl; trivial.
  - apply Qeq_bool_sym.
  - apply String.eqb_sym.
Qed.

Lemma field_eq_trans (a b c : field) :
  Wide.eq a b = true -> Wide.eq b c = true -> Wide.eq a c = true.
Proof.
  destruct a as [|[| | |x]|s], b as [|[| | |y]|t], c as [|[| | |z]|u];
    simpl; try discriminate; trivial.
  - apply Qeq_bool_trans_true.
  - rewrite !String.eqb_eq. congruence.
Qed.

Lemma field_eq_refl (a : field) : Wide.eq a a = negb (is_nan a).
Proof.
  destruct a as [|[| | |x]|s]; simpl; trivial.
  - apply Qeq_bool_iff. reflexivity.
  - apply String.eqb_refl.
Qed.

Lemma field_le_trans (a b c : field) :
  Wide.le a b = Py.Ok true -> Wide.le b c = Py.Ok true ->
  Wide.le a c = Py.Ok true.
Proof.
  destruct a as [|[| | |x]|s], b as [|[| | |y]|t], c as [|[| | |z]|u];
    simpl; try discriminate; trivial.
  - intros H1 H2. injection H1 as H1. injection H2 as H2.
    rewrite (@Qle_bool_trans_true x y z H1 H2). reflexivity.
  - intros H1 H2. injection H1 as H1. injection H2 as H2.
    rewrite (@leb_trans s t u H1 H2). reflexivity.
Qed.

Lemma field_le_refl (a : field) :
  Wide.le a a = Py.Ok true <-> comparable a = true.
Proof.
  destruct a as [|[| | |x]|s]; simpl; split; try discriminate; trivial.
  - intros _. f_equal. apply Qle_bool_iff. apply Qle_refl.
  - intros _. f_equal. apply leb_refl.
Qed.

(** *** __eq__ *)

(** X3. [==] on intervals reads the two bounds only, for all the values
    the fields admit: it is symmetric and transitive, and [a == a] holds
    exactly when no bound of [a] is NaN. *)
Theorem eq_partial_equivalence (a b c : WideInterval) :
  Wide.__eq__ a b = Wide.__eq__ b a
  /\ (Wide.__eq__ a b = true -> Wide.__eq__ b c = true ->
      Wide.__eq__ a c = true)
  /\ Wide.__eq__ a a = negb (is_nan (wide_lb a) || is_nan (wide_ub a))
  /\ (forall f g w v,
        Wide.__eq__ (mkWide (wide_lb a) (wide_ub a) f w)
                    (mkWide (wide_lb b) (wide_ub b) g v)
        = Wide.__eq__ a b).
Proof.
  unfold Wide.__eq__. split; [|split; [|split]].
  - rewrite (field_eq_sym (wide_lb a)), (field_eq_sym (wide_ub a)). reflexivity.
  - rewrite !andb_true_iff. intros [H1 H2] [H3 H4]. split.
    + eapply field_eq_trans; eassumption.
    + eapply field_eq_trans; eassumption.
  - rewrite !field_eq_refl. symmetry. apply negb_orb.
  - reflexivity.
Qed.

Lemma eq_partial_equivalence_witness :
  Wide.__eq__ (mkWide (FieldFloat (FFin (1 # 2))) (FieldStr "inf") false None)
              (mkWide (FieldFloat (FFin (2 # 4))) (FieldStr "inf") true None)
  = true
  /\ Wide.__eq__ (mkWide (FieldFloat (FFin (2 # 4))) (FieldStr "inf") true None)
                 (mkWide (FieldFloat (FFin (3 # 6))) (FieldStr "inf") false None)
     = true
  /\ Wide.__eq__ (mkWide (FieldFloat (FFin (1 # 2))) (FieldStr "inf") false None)
                 (mkWide (FieldFloat (FFin (3 # 6))) (FieldStr "inf") false None)
     = true
  /\ Wide.__eq__ (mkWide (FieldFloat FNaN) (FieldFloat (FFin 1)) false None)
                 (mkWide (FieldFloat FNaN) (FieldFloat (FFin 1)) false None)
     = false.
Proof.
  split; [reflexivity|]. split; [reflexivity|]. split; [|reflexivity].
  apply (proj1 (proj2 (eq_partial_equivalence
           (mkWide (FieldFloat (FFin (1 # 2))) (FieldStr "inf") false None)
           (mkWide (FieldFloat (FFin (2 # 4))) (FieldStr "inf") true None)
           (mkWide (FieldFloat (FFin (3 # 6))) (FieldStr "inf") false None))));
    reflexivity.
Defined.

(** *** contains *)

(** The two tests of [contains], on the lower and on the upper bounds. *)
Definition lower (NEG : string) (x y : field) : Py.result bool :=
  if Wide.eq x (FieldStr NEG) || Wide.eq y (FieldStr NEG)
  then Py.Ok (Wide.eq x (FieldStr NEG) || negb (Wide.eq y (FieldStr NEG)))
  else Wide.le x y.

Definition upper (POS : string) (x y : field) : Py.result bool :=
  if Wide.eq x (FieldStr POS) || Wide.eq y (FieldStr POS)
  then Py.Ok (negb (Wide.eq y (FieldStr POS)) || Wide.eq x (FieldStr POS))
  else Wide.le y x.

Lemma contains_true (NEG POS : string) (a b : WideInterval) :
  Wide.contains NEG POS a b = Py.Ok true
  <-> lower NEG (wide_lb a) (wide_lb b) = Py.Ok true
      /\ upper POS (wide_ub a) (wide_ub b) = Py.Ok true.
Proof.
  unfold Wide.contains.
  change (if Wide.eq (wide_lb a) (FieldStr NEG)
             || Wide.eq (wide_lb b) (FieldStr NEG)
          then Py.Ok (Wide.eq (wide_lb a) (FieldStr NEG)
                      || negb (Wide.eq (wide_lb b) (FieldStr NEG)))
          else Wide.le (wide_lb a) (wide_lb b))
    with (lower NEG (wide_lb a) (wide_lb b)).
  change (if Wide.eq (wide_ub a) (FieldStr POS)
             || Wide.eq (wide_ub b) (FieldStr POS)
          then Py.Ok (negb (Wide.eq (wide_ub b) (FieldStr POS))
                      || Wide.eq (wide_ub a) (FieldStr POS))
          else Wide.le (wide_ub b) (wide_ub a))
    with (upper POS (wide_ub a) (wide_ub b)).
  destruct (lower NEG (wide_lb a) (wide_lb b)) as [[|]|e];
    destruct (upper POS (wide_ub a) (wide_ub b)) as [[|]|e'];
    simpl; split; try discriminate; try tauto;
    intros [H1 H2]; discriminate.
Qed.

Lemma lower_trans (NEG : string) (x y z : field) :
  lower NEG x y = Py.Ok true -> lower NEG y z = Py.Ok true ->
  lower NEG x z = Py.Ok true.
Proof.
  unfold lower.
  destruct (Wide.eq x (FieldStr NEG)), (Wide.eq y (FieldStr NEG)),
    (Wide.eq z (FieldStr NEG)); simpl; try discriminate; trivial.
  apply field_le_trans.
Qed.

Lemma upper_trans (POS : string) (x y z : field) :
  upper POS x y = Py.Ok true -> upper POS y z = Py.Ok true ->
  upper POS x z = Py.Ok true.
Proof.
  unfold upper.
  destruct (Wide.eq x (FieldStr POS)), (Wide.eq y (FieldStr POS)),
    (Wide.eq z (FieldStr POS)); simpl; try discriminate; trivial.
  intros H1 H2. eapply field_le_trans; eassumption.
Qed.

Lemma lower_refl (NEG : string) (x : field) :
  lower NEG x x = Py.Ok true <-> comparable x = true.
Proof.
  unfold lower. destruct (Wide.eq x (FieldStr NEG)) eqn:E; simpl.
  - split; trivial. intros _. destruct x as [|f|s]; try discriminate.
    reflexivity.
  - apply field_le_refl.
Qed.

Lemma upper_refl (POS : string) (x : field) :
  upper POS x x = Py.Ok true <-> comparable x = true.
Proof.
  unfold upper. destruct (Wide.eq x (FieldStr POS)) eqn:E; simpl.
  - split; trivial. intros _. destruct x as [|f|s]; try discriminate.
    reflexivity.
  - apply field_le_refl.
Qed.

(** X2. For all the values the fields admit and whatever the two
    sentinel strings are, [contains] is transitive; [a.contains(a)] is
    [True] exactly when no bound of [a] is [None] or NaN (it raises
    TypeError or is [False] otherwise). *)
Theorem contains_transitive (NEG POS : string) (a b c : WideInterval) :
  (Wide.contains NEG POS a b = Py.Ok true ->
   Wide.contains NEG POS b c = Py.Ok true ->
   Wide.contains NEG POS a c = Py.Ok true)
  /\ (Wide.contains NEG POS a a = Py.Ok true
      <-> comparable (wide_lb a) = true /\ comparable (wide_ub a) = true).
Proof.
  split.
  - rewrite !contains_true. intros [L1 U1] [L2 U2]. split.
    + eapply lower_trans; eassumption.
    + eapply upper_trans; eassumption.
  - rewrite contains_true, lower_refl, upper_refl. tauto.
Qed.

Definition unit_nan : WideInterval :=
  mkWide (FieldFloat (FFin 0)) (FieldFloat FNaN) false None.

Lemma contains_transitive_witness :
  Wide.contains "-inf" "inf"
    (mkWide (FieldStr "-inf") (FieldStr "inf") false None)
    (mkWide (FieldFloat (FFin 0)) (FieldFloat FPosInf) false None)
  = Py.Ok true
  /\ Wide.contains "-inf" "inf"
       (mkWide (FieldFloat (FFin 0)) (FieldFloat FPosInf) false None)
       (mkWide (FieldFloat (FFin 2)) (FieldFloat (FFin 5)) true None)
     = Py.Ok true
  /\ Wide.contains "-inf" "inf"
       (mkWide (FieldStr "-inf") (FieldStr "inf") false None)
       (mkWide (FieldFloat (FFin 2)) (FieldFloat (FFin 5)) true None)
     = Py.Ok true
  /\ Wide.contains "-inf" "inf" unit_nan unit_nan = Py.Ok false.
Proof.
  split; [reflexivity|]. split; [reflexivity|]. split; [|reflexivity].
  apply (proj1 (contains_transitive "-inf" "inf"
           (mkWide (FieldStr "-inf") (FieldStr "inf") false None)
           (mkWide (FieldFloat (FFin 0)) (FieldFloat FPosInf) false None)
           (mkWide (FieldFloat (FFin 2)) (FieldFloat (FFin 5)) true None)));
    reflexivity.
Defined.

(** *** The narrow embedding is the wide one on its bounds *)

Lemma eq_agrees (NEG POS : string) (x y : Bound) :
  NEG <> POS ->
  Wide.eq (Wide.of_bound NEG POS x) (Wide.of_bound NEG POS y) = Bounds.eq x y.
Proof.
  intros H. destruct x as [| |x], y as [| |y]; simpl; trivial;
    try apply String.eqb_refl; apply String.eqb_neq; congruence.
Qed.

Lemma contains_agrees (NEG POS : string) (a b : Interval) :
  NEG <> POS ->
  Wide.contains NEG POS (Wide.of_interval NEG POS a)
                (Wide.of_interval NEG POS b)
  = Interval.contains a b.
Proof.
  intros H. unfold Wide.contains, Interval.contains, Wide.of_interval. simpl.
  change (FieldStr NEG) with (Wide.of_bound NEG POS NEG_INFINITY).
  change (FieldStr POS) with (Wide.of_bound NEG POS POS_INFINITY).
  rewrite !(eq_agrees _ _ H).
  destruct a as [[| |la] [| |ua] ca wa], b as [[| |lb_] [| |ub_] cb wb];
    simpl; rewrite ?leb_refl; reflexivity.
Qed.

(** X4. On intervals whose bounds are finite floats or the sentinels,
    with no lower bound POS_INFINITY and no upper bound NEG_INFINITY,
    [contains] does not raise and is the comparator's
    [a.lb <= b.lb and b.ub <= a.ub]; the flags are not read. *)
Theorem contains_by_comparator (NEG POS : string) (a b : Interval) :
  NEG <> POS ->
  IntervalAlgebra.placed a = true -> IntervalAlgebra.placed b = true ->
  Wide.contains NEG POS (Wide.of_interval NEG POS a)
                (Wide.of_interval NEG POS b)
  = Py.Ok (math_utils.lte (lb a) (lb b) && math_utils.lte (ub b) (ub a)).
Proof.
  intros H Ha Hb. rewrite (contains_agrees _ _ H).
  apply IntervalAlgebra.placed_contains; assumption.
Qed.

Lemma contains_by_comparator_witness :
  "-inf"%string <> "inf"%string
  /\ IntervalAlgebra.placed (mkInterval NEG_INFINITY (Fin 4) false None) = true
  /\ IntervalAlgebra.placed (mkInterval (Fin 1) (Fin 4) true None) = true
  /\ Wide.contains "-inf" "inf"
       (mkWide (FieldStr "-inf") (FieldFloat (FFin 4)) false None)
       (mkWide (FieldFloat (FFin 1)) (FieldFloat (FFin 4)) true None)
     = Py.Ok (math_utils.lte NEG_INFINITY (Fin 1)
              && math_utils.lte (Fin 4) (Fin 4)).
Proof.
  split; [discriminate|]. split; [reflexivity|]. split; [reflexivity|].
  apply (@contains_by_comparator "-inf" "inf"
           (mkInterval NEG_INFINITY (Fin 4) false None)
           (mkInterval (Fin 1) (Fin 4) true None));
    [discriminate|reflexivity|reflexivity].
Defined.

(** *** The constructor *)

(** The error of the validator's warning at a bound that [.5f] does not
    format: TypeError for [None], ValidationError for a string. *)
Definition format_error (a : field) (e : Py.exn) : Prop :=
  match a with
  | FieldNone => exists what, e = Py.TypeError what
  | _ => exists what, e = Py.ValidationError what
  end.

Definition is_float (a : field) : bool :=
  match a with FieldFloat _ => true | _ => false end.

(** Equal bounds that are not floats, and an open upper bound. *)
Definition open_unformattable_point (lb_ ub_ : field) (closed : bool) : bool :=
  negb closed && Wide.eq lb_ ub_ && negb (is_float lb_).

(** X5. For all the values the fields admit, the constructor raises, with
    nothing logged, exactly when [closed_upper_bound] is [False] and the
    two bounds are equal strings (ValidationError; the two sentinels are
    such) or both [None] (TypeError): the warning of the validator
    formats the bounds with [.5f]. In every other case it returns an
    interval with the bounds it was given, closed when they are equal. *)
Theorem init_raises_exactly (lb_ ub_ : field) (closed : bool)
        (log : list string) :
  match Wide.init lb_ ub_ closed log with
  | (Py.Ok i, _) =>
      open_unformattable_point lb_ ub_ closed = false
      /\ wide_lb i = lb_ /\ wide_ub i = ub_
      /\ wide_closed_upper_bound i = (closed || Wide.eq lb_ ub_)
  | (Py.Raise e, log') =>
      open_unformattable_point lb_ ub_ closed = true
      /\ format_error lb_ e /\ log' = log
  end.
Proof.
  unfold Wide.init, Wide.check_interval, open_unformattable_point.
  unfold Py.bind, Py.lift, Py.ret, Py.warning, Wide.__str__.
  destruct closed; cbn.
  - rewrite andb_false_r. cbn. repeat split.
  - rewrite andb_true_r.
    destruct lb_ as [|[| | |x]|s], ub_ as [|[| | |y]|t]; cbn;
      try (repeat split; eauto; fail).
    + destruct (Qeq_bool x y); cbn; repeat split.
    + destruct (String.eqb s t); cbn; repeat split; eauto.
Qed.

Lemma init_agrees (NEG POS : string) (lb_ ub_ : Bound) (closed : bool)
      (log : list string) :
  NEG <> POS ->
  Wide.init (Wide.of_bound NEG POS lb_) (Wide.of_bound NEG POS ub_) closed log
  = match Interval.init lb_ ub_ closed log with
    | (Py.Ok i, log') => (Py.Ok (Wide.of_interval NEG POS i), log')
    | (Py.Raise e, log') => (Py.Raise e, log')
    end.
Proof.
  intros H.
  unfold Wide.init, Wide.check_interval, Interval.init, Interval.check_interval.
  unfold Py.bind, Py.lift, Py.ret, Py.warning, Wide.__str__, Interval.__str__.
  assert (N1 : String.eqb NEG POS = false) by (apply String.eqb_neq; exact H).
  assert (N2 : String.eqb POS NEG = false)
    by (apply String.eqb_neq; congruence).
  destruct lb_ as [| |x], ub_ as [| |y], closed; cbn;
    rewrite ?String.eqb_refl, ?N1, ?N2; cbn; try reflexivity.
  all: destruct (Qeq_bool x y); cbn; reflexivity.
Qed.

(** *** from_value *)

(** X7. [from_value(v)] returns, for every value [v] the fields admit
    and with nothing logged, the closed interval with both bounds [v];
    [is_point()] holds on it exactly when [v] is not NaN. When [v] is a
    finite float or a sentinel, [contains_value(x)] is [x == v]. *)
Theorem from_value_point (v : field) (b : Bound) (log : list string) :
  Wide.from_value v log = (Py.Ok (mkWide v v true None), log)
  /\ Wide.is_point (mkWide v v true None) = negb (is_nan v)
  /\ Interval.from_value b log = (Py.Ok (mkInterval b b true None), log)
  /\ forall x, Interval.contains_value (mkInterval b b true None) x
               = Bounds.eq x b.
Proof.
  split; [|split].
  - unfold Wide.from_value, Wide.init, Wide.check_interval. cbn.
    rewrite andb_false_r. reflexivity.
  - unfold Wide.is_point. cbn. rewrite andb_true_r. apply field_eq_refl.
  - destruct (IntervalAlgebra.from_value_of_bound b log) as (H1 & _ & H3).
    split; assumption.
Qed.

End WideFacts.
